(** * The subagent tool of [claudetool/subagent.go]

    A shallow embedding of the slug sanitizer, the tool descriptor builders
    and the executor [SubagentTool.Run], followed by the properties the
    specification states about them.

    Go strings are byte sequences and are modelled by [string] (a list of
    8-bit characters).  Runes are code points in [Z].  The pieces of the Go
    standard library the code calls are modelled in modules named after
    their packages. *)

From Stdlib Require Import ZArith List String Ascii Bool Lia.
From Equations Require Import Equations.
Import ListNotations.

Local Open Scope list_scope.
Local Open Scope string_scope.
Local Open Scope Z_scope.

Definition rune := Z.

(** A byte as a number, and the conversion [byte(z)], which keeps the low
    eight bits. *)
Definition byteZ (c : ascii) : Z := Z.of_N (N_of_ascii c).
Definition byteOf (z : Z) : ascii := ascii_of_N (Z.to_N (z mod 256)).

(** ** Package [unicode/utf8] *)
Module utf8.

Definition RuneError : rune := 0xFFFD.
Definition RuneSelf : Z := 0x80.
Definition MaxRune : rune := 0x10FFFF.

(** The table [first] with [acceptRanges]: for a leading byte, the length
    of the sequence and the range its second byte must lie in. *)
Definition first (p0 : Z) : option (nat * Z * Z) :=
  if (0xC2 <=? p0) && (p0 <=? 0xDF) then Some (2%nat, 0x80, 0xBF)
  else if p0 =? 0xE0 then Some (3%nat, 0xA0, 0xBF)
  else if (0xE1 <=? p0) && (p0 <=? 0xEC) then Some (3%nat, 0x80, 0xBF)
  else if p0 =? 0xED then Some (3%nat, 0x80, 0x9F)
  else if (0xEE <=? p0) && (p0 <=? 0xEF) then Some (3%nat, 0x80, 0xBF)
  else if p0 =? 0xF0 then Some (4%nat, 0x90, 0xBF)
  else if (0xF1 <=? p0) && (p0 <=? 0xF3) then Some (4%nat, 0x80, 0xBF)
  else if p0 =? 0xF4 then Some (4%nat, 0x80, 0x8F)
  else None.

Definition cont (b : Z) : bool := (0x80 <=? b) && (b <=? 0xBF).

(** [DecodeRuneInString]: the first rune of [s] and its width in bytes;
    an invalid or short sequence gives [(RuneError, 1)]. *)
Definition DecodeRuneInString (s : string) : rune * nat :=
  match s with
  | EmptyString => (RuneError, 0%nat)
  | String c0 s1 =>
    let p0 := byteZ c0 in
    if p0 <? RuneSelf then (p0, 1%nat) else
    match first p0, s1 with
    | Some (sz, lo, hi), String c1 s2 =>
      let b1 := byteZ c1 in
      if negb ((lo <=? b1) && (b1 <=? hi)) then (RuneError, 1%nat) else
      match sz, s2 with
      | 2%nat, _ =>
        (Z.lor (Z.shiftl (Z.land p0 0x1F) 6) (Z.land b1 0x3F), 2%nat)
      | 3%nat, String c2 _ =>
        let b2 := byteZ c2 in
        if negb (cont b2) then (RuneError, 1%nat) else
        (Z.lor (Z.lor (Z.shiftl (Z.land p0 0x0F) 12)
                      (Z.shiftl (Z.land b1 0x3F) 6))
               (Z.land b2 0x3F), 3%nat)
      | 4%nat, String c2 (String c3 _) =>
        let b2 := byteZ c2 in
        let b3 := byteZ c3 in
        if negb (cont b2) then (RuneError, 1%nat) else
        if negb (cont b3) then (RuneError, 1%nat) else
        (Z.lor (Z.lor (Z.lor (Z.shiftl (Z.land p0 0x07) 18)
                             (Z.shiftl (Z.land b1 0x3F) 12))
                      (Z.shiftl (Z.land b2 0x3F) 6))
               (Z.land b3 0x3F), 4%nat)
      | _, _ => (RuneError, 1%nat)
      end
    | _, _ => (RuneError, 1%nat)
    end
  end.

(** The runes a [for _, r := range s] loop visits.  [skip] counts the
    bytes of the current rune that are still to be passed over. *)
Fixpoint rangeFrom (skip : nat) (s : string) : list rune :=
  match s with
  | EmptyString => []
  | String _ rest =>
    match skip with
    | S k => rangeFrom k rest
    | O => let (r, w) := DecodeRuneInString s in
           r :: rangeFrom (Nat.pred w) rest
    end
  end.

Definition range (s : string) : list rune := rangeFrom 0 s.

(** [AppendRune]/[EncodeRune]: the UTF-8 encoding of a rune; surrogates
    and values out of range are written as [RuneError]. *)
Definition enc3 (r : rune) : string :=
  String (byteOf (Z.lor 0xE0 (Z.shiftr r 12)))
 (String (byteOf (Z.lor 0x80 (Z.land (Z.shiftr r 6) 0x3F)))
 (String (byteOf (Z.lor 0x80 (Z.land r 0x3F))) EmptyString)).

Definition EncodeRune (r : rune) : string :=
  if (0 <=? r) && (r <=? 0x7F) then String (byteOf r) EmptyString
  else if (0 <=? r) && (r <=? 0x7FF) then
    String (byteOf (Z.lor 0xC0 (Z.shiftr r 6)))
   (String (byteOf (Z.lor 0x80 (Z.land r 0x3F))) EmptyString)
  else if (r <? 0) || (MaxRune <? r) || ((0xD800 <=? r) && (r <=? 0xDFFF))
  then enc3 RuneError
  else if r <=? 0xFFFF then enc3 r
  else
    String (byteOf (Z.lor 0xF0 (Z.shiftr r 18)))
   (String (byteOf (Z.lor 0x80 (Z.land (Z.shiftr r 12) 0x3F)))
   (String (byteOf (Z.lor 0x80 (Z.land (Z.shiftr r 6) 0x3F)))
   (String (byteOf (Z.lor 0x80 (Z.land r 0x3F))) EmptyString))).

End utf8.

(** ** Package [unicode] *)
Module unicode.

Definition MaxASCII : rune := 0x7F.

Section CaseTables.
(** [To(LowerCase, r)] looks [r] up in the table [CaseRanges], which is
    data of the Go distribution; it is consulted for runes above
    [MaxASCII] only and is kept abstract. *)
Variable ToLowerCase : rune -> rune.

Definition ToLower (r : rune) : rune :=
  if r <=? MaxASCII then
    if (65 <=? r) && (r <=? 90) then r + (97 - 65) else r
  else ToLowerCase r.
End CaseTables.

End unicode.

(** ** Package [strings] *)
Module strings.

Fixpoint HasPrefix (s prefix : string) {struct prefix} : bool :=
  match prefix, s with
  | EmptyString, _ => true
  | String p rest, String c srest => Ascii.eqb c p && HasPrefix srest rest
  | String _ _, EmptyString => false
  end.

Fixpoint HasSuffix (s suffix : string) : bool :=
  String.eqb s suffix ||
  match s with
  | EmptyString => false
  | String _ rest => HasSuffix rest suffix
  end.

(** [Contains s substr]: [substr] starts at some position of [s]. *)
Fixpoint Contains (s substr : string) : bool :=
  HasPrefix s substr ||
  match s with
  | EmptyString => false
  | String _ rest => Contains rest substr
  end.

(** [ReplaceAll s old new] for a non-empty [old]: scan left to right,
    replace each occurrence found and resume right after it
    (occurrences do not overlap). *)
Fixpoint replaceFrom (skip : nat) (s old new : string) : string :=
  match s with
  | EmptyString => EmptyString
  | String c rest =>
    match skip with
    | S k => replaceFrom k rest old new
    | O => if HasPrefix s old
           then new ++ replaceFrom (Nat.pred (String.length old)) rest old new
           else String c (replaceFrom 0 rest old new)
    end
  end.

Definition ReplaceAll (s old new : string) : string := replaceFrom 0 s old new.

Fixpoint inCutset (cutset : string) (c : ascii) : bool :=
  match cutset with
  | EmptyString => false
  | String d rest => Ascii.eqb c d || inCutset rest c
  end.

Fixpoint TrimLeft (s cutset : string) : string :=
  match s with
  | EmptyString => EmptyString
  | String c rest => if inCutset cutset c then TrimLeft rest cutset else s
  end.

Fixpoint TrimRight (s cutset : string) : string :=
  match s with
  | EmptyString => EmptyString
  | String c rest =>
    match TrimRight rest cutset with
    | EmptyString => if inCutset cutset c then EmptyString
                     else String c EmptyString
    | kept => String c kept
    end
  end.

(** [Trim s cutset] for a cutset of ASCII bytes: remove the leading and
    the trailing bytes that belong to the cutset. *)
Definition Trim (s cutset : string) : string :=
  TrimLeft (TrimRight s cutset) cutset.

Fixpoint Join (elems : list string) (sep : string) : string :=
  match elems with
  | [] => EmptyString
  | [e] => e
  | e :: rest => e ++ sep ++ Join rest sep
  end.

(** The runes visited by [for _, r := range strings.ToLower(s)]:
    [strings.ToLower] maps [unicode.ToLower] over the runes of [s] (an
    invalid byte comes out as [RuneError] either way). *)
Definition ToLowerRunes (ToLowerCase : rune -> rune) (s : string) : list rune :=
  map (unicode.ToLower ToLowerCase) (utf8.range s).

End strings.

(** ** Package [time] *)
Module time.

(** [Duration] is an [int64] count of nanoseconds. *)
Definition Duration := Z.
Definition Second : Duration := 1000000000.

(** Two's complement wrap-around of 64-bit signed arithmetic. *)
Definition int64 (z : Z) : Z := (z + 2 ^ 63) mod 2 ^ 64 - 2 ^ 63.

End time.

(** Go's [error] values are represented by their messages, and a Go result
    pair [(v, err)] by [Ok v] when [err == nil] and [Err msg] otherwise. *)
Definition error := string.

Inductive result (A : Type) : Type :=
| Ok (v : A)
| Err (e : error).
Arguments Ok {A} v.
Arguments Err {A} e.

(** ** Package [llm] *)
Module llm.

(** Modelled from the spec: the package [llm] is not among the sources.  A
    content block of type text. *)
Record Content := { Text : string }.

(** Modelled from the spec: [llm.ToolOut] is not among the sources.  "Tool
    output carries [LLMContent] (what the model sees) and [Display] (what
    the UI renders) and/or an [Error]"; [D] is the type of the display
    payload. *)
Record ToolOut (D : Type) := {
  LLMContent : list Content;
  Display : option D;
  Error : option error }.
Arguments LLMContent {D} _.
Arguments Display {D} _.
Arguments Error {D} _.

(** Modelled from the spec: [llm.ErrorfToolOut] is not among the sources.
    A tool-level error: the output whose [Error] is the formatted message. *)
Definition ErrorfToolOut {D : Type} (msg : string) : ToolOut D :=
  {| LLMContent := []; Display := None; Error := Some msg |}.

(** Modelled from the spec: [llm.TextContent] is not among the sources.
    "A single text block". *)
Definition TextContent (text : string) : list Content := [ {| Text := text |} ].

End llm.

(** ** Package [claudetool]: data *)

Record AvailableModel := {
  ID : string;
  DisplayName : string }.

(** Modelled from the spec: the type [MutableWorkingDir] is not among the
    sources.  It is a mutable reference to the parent's working directory
    that [Run] reads once, when it binds the child; it is represented by
    the path [Get] returns at that read. *)
Definition MutableWorkingDir := string.

(** The fields [DB] and [Runner] of the Go struct hold interface values; a
    call through them is an event of [Prog] below, answered by whatever
    implementation the tool was built with. *)
Record SubagentTool := {
  ParentConversationID : string;
  WorkingDir : MutableWorkingDir;
  ModelID : string;
  AvailableModels : list AvailableModel }.

Record subagentInput := {
  Slug : string;
  Prompt : string;
  TimeoutSeconds : Z;
  Wait : option bool;
  Model : string }.

Module SubagentDisplayData.
Record t := {
  Slug : string;
  ConversationID : string }.
End SubagentDisplayData.

Definition ToolOut := llm.ToolOut SubagentDisplayData.t.

(** Arguments of the two interface methods. *)
Record DBCall := {
  db_slug : string;
  db_parentID : string;
  db_cwd : string }.

Record RunnerCall := {
  run_conversationID : string;
  run_prompt : string;
  run_wait : bool;
  run_timeout : time.Duration;
  run_modelID : string }.

(** A computation that may call [SubagentDB.GetOrCreateSubagentConversation]
    and [SubagentRunner.RunSubagent] and continues with their results. *)
Inductive Prog (R : Type) : Type :=
| Ret (r : R)
| GetOrCreateSubagentConversation (c : DBCall)
    (k : result (string * string) -> Prog R)
| RunSubagent (c : RunnerCall) (k : result string -> Prog R).
Arguments Ret {R} r.
Arguments GetOrCreateSubagentConversation {R} c k.
Arguments RunSubagent {R} c k.

(** ** Text constants *)
Definition nl : string := String "010"%char EmptyString.
Definition dq : string := String "034"%char EmptyString.
Definition quoted (s : string) : string := dq ++ s ++ dq.

(** ** [sanitizeSlug] *)

(** [strings.Builder.WriteRune]: append the UTF-8 encoding of [r]. *)
Definition WriteRune (b : string) (r : rune) : string := b ++ utf8.EncodeRune r.

(** The body of the first loop, from the builder before a rune to the
    builder after it. *)
Definition sanitizeStep (result : string) (r : rune) : string :=
  if ((byteZ "a" <=? r) && (r <=? byteZ "z"))
     || ((byteZ "0" <=? r) && (r <=? byteZ "9"))
     || (r =? byteZ "-")
  then WriteRune result r
  else if (r =? byteZ " ") || (r =? byteZ "_")
  then WriteRune result (byteZ "-")
  else result.

(** A value together with the proof that it is the value of [a], so that
    the branch taken on the loop condition is remembered. *)
Definition inspect {A : Type} (a : A) : {b : A | a = b} := exist _ a eq_refl.

(** The loop [for strings.Contains(s, "--") { s = strings.ReplaceAll(s, "--", "-") }]. *)
Equations? collapseLoop (s : string) : string by wf (String.length s) lt :=
  collapseLoop s with inspect (strings.Contains s "--") => {
    | exist _ true _ => collapseLoop (strings.ReplaceAll s "--" "-");
    | exist _ false _ => s }.
Proof.
  clear collapseLoop.
  assert (G : forall (n : nat) (t : string), (String.length t <= n)%nat ->
    (String.length (strings.ReplaceAll t "--" "-") <= String.length t)%nat /\
    (strings.Contains t "--" = true ->
     (String.length (strings.ReplaceAll t "--" "-") < String.length t)%nat)).
  { unfold strings.ReplaceAll.
    induction n as [|n IH]; intros t Hn.
    - destruct t; [|cbn in Hn; lia]. cbn. split; [lia|discriminate].
    - destruct t as [|c [|a t']].
      + cbn. split; [lia|discriminate].
      + cbn. destruct (Ascii.eqb c "-"); cbn; split; try lia; discriminate.
      + cbn [String.length] in Hn.
        assert (H1 := IH t' ltac:(lia)).
        assert (H2 := IH (String a t') ltac:(cbn [String.length]; lia)).
        change (strings.replaceFrom 0 (String c (String a t')) "--" "-")
          with (if Ascii.eqb c "-" && (Ascii.eqb a "-" && true)
                then String "-" (strings.replaceFrom 0 t' "--" "-")
                else String c (strings.replaceFrom 0 (String a t') "--" "-")).
        change (strings.Contains (String c (String a t')) "--")
          with ((Ascii.eqb c "-" && (Ascii.eqb a "-" && true))
                || strings.Contains (String a t') "--").
        destruct H1 as [H1 _], H2 as [H2 H3].
        destruct (Ascii.eqb c "-" && (Ascii.eqb a "-" && true));
          cbn [orb String.length] in *; split; intros; try lia.
        apply H3 in H. lia. }
  apply (G (String.length s) s); [lia|assumption].
Qed.

Section Sanitizer.
Variable ToLowerCase : rune -> rune.

(** Lowercase, keep alphanumeric and hyphens; remove consecutive hyphens
    and trim. *)
Definition sanitizeSlug (slug : string) : string :=
  let result := fold_left sanitizeStep (strings.ToLowerRunes ToLowerCase slug) "" in
  let s := result in
  let s := collapseLoop s in
  strings.Trim s "-".

End Sanitizer.

(** ** The sanitizer in the words of the specification

    Lowercase; map [' '] and ['_'] to ['-']; drop any character not in
    [[a-z0-9-]]; collapse runs of ['-'] to a single ['-']; trim leading and
    trailing ['-'].  Each step is a pass of its own. *)
Module SanitizerSpec.

Definition hyphen : ascii := "-"%char.

Definition mapSeparators (rs : list rune) : list rune :=
  map (fun r => if (r =? byteZ " ") || (r =? byteZ "_") then byteZ hyphen else r) rs.

Definition inAlphabet (r : rune) : bool :=
  ((byteZ "a" <=? r) && (r <=? byteZ "z"))
  || ((byteZ "0" <=? r) && (r <=? byteZ "9"))
  || (r =? byteZ hyphen).

Definition dropForeign (rs : list rune) : list rune := filter inAlphabet rs.

Fixpoint text (rs : list rune) : string :=
  match rs with
  | [] => EmptyString
  | r :: rest => String (byteOf r) (text rest)
  end.

(** A ['-'] that is followed by another ['-'] is removed, which leaves the
    last one of every run. *)
Fixpoint collapseRuns (s : string) : string :=
  match s with
  | EmptyString => EmptyString
  | String c rest =>
    if Ascii.eqb c hyphen && strings.HasPrefix rest "-"
    then collapseRuns rest
    else String c (collapseRuns rest)
  end.

Fixpoint dropLeading (s : string) : string :=
  match s with
  | String c rest => if Ascii.eqb c hyphen then dropLeading rest else s
  | EmptyString => EmptyString
  end.

Fixpoint reverse (s : string) : string :=
  match s with
  | EmptyString => EmptyString
  | String c rest => reverse rest ++ String c EmptyString
  end.

Definition trimHyphens (s : string) : string :=
  dropLeading (reverse (dropLeading (reverse s))).

Definition sanitize (ToLowerCase : rune -> rune) (x : string) : string :=
  let lowered := strings.ToLowerRunes ToLowerCase x in
  trimHyphens (collapseRuns (text (dropForeign (mapSeparators lowered)))).

End SanitizerSpec.

(** The slug alphabet [[a-z0-9-]] on bytes. *)
Definition isSlugByte (c : ascii) : bool :=
  let z := byteZ c in
  ((byteZ "a" <=? z) && (z <=? byteZ "z"))
  || ((byteZ "0" <=? z) && (z <=? byteZ "9"))
  || (z =? byteZ "-").

Fixpoint allBytes (p : ascii -> bool) (s : string) : bool :=
  match s with
  | EmptyString => true
  | String c rest => p c && allBytes p rest
  end.

(** ** Tool descriptor *)

Definition subagentName : string := "subagent".

Definition descriptionBase : string :=
  "Spawn or interact with a subagent conversation." ++ nl ++
  nl ++
  "Subagents are independent conversations that can work on subtasks in parallel." ++ nl ++
  "Use subagents for:" ++ nl ++
  "- Long-running tasks that you want to delegate" ++ nl ++
  "- Token-intensive tasks that produce lots of output, little of which is needed" ++ nl ++
  "- Parallel exploration of different approaches" ++ nl ++
  "- Breaking down complex problems into independent pieces" ++ nl ++
  nl ++
  "Each subagent has its own slug identifier within this conversation." ++ nl ++
  "You can send messages to existing subagents by using the same slug." ++ nl ++
  "The tool returns the subagent's last response, or a status if the timeout is reached.".

Definition modelsHeader : string :=
  nl ++ nl ++ "Available models (use the " ++ quoted "model" ++
  " parameter to override the default):".

Definition modelLine (m : AvailableModel) : string :=
  if negb (String.eqb (DisplayName m) "") && negb (String.eqb (DisplayName m) (ID m))
  then nl ++ "- " ++ ID m ++ " (" ++ DisplayName m ++ ")"
  else nl ++ "- " ++ ID m.

Definition subagentDescription (s : SubagentTool) : string :=
  let base := descriptionBase in
  if (0 <? List.length (AvailableModels s))%nat then
    let base := base ++ modelsHeader in
    fold_left (fun base m => base ++ modelLine m) (AvailableModels s) base
  else base.

Definition schemaHead : string :=
  "{" ++ nl ++
  "  " ++ quoted "type" ++ ": " ++ quoted "object" ++ "," ++ nl ++
  "  " ++ quoted "required" ++ ": [" ++ quoted "slug" ++ ", " ++ quoted "prompt" ++ "]," ++ nl ++
  "  " ++ quoted "properties" ++ ": {" ++ nl ++
  "    " ++ quoted "slug" ++ ": {" ++ nl ++
  "      " ++ quoted "type" ++ ": " ++ quoted "string" ++ "," ++ nl ++
  "      " ++ quoted "description" ++ ": " ++
    quoted "A short identifier for this subagent (e.g., 'research-api', 'test-runner')" ++ nl ++
  "    }," ++ nl ++
  "    " ++ quoted "prompt" ++ ": {" ++ nl ++
  "      " ++ quoted "type" ++ ": " ++ quoted "string" ++ "," ++ nl ++
  "      " ++ quoted "description" ++ ": " ++ quoted "The message to send to the subagent" ++ nl ++
  "    }," ++ nl ++
  "    " ++ quoted "timeout_seconds" ++ ": {" ++ nl ++
  "      " ++ quoted "type" ++ ": " ++ quoted "integer" ++ "," ++ nl ++
  "      " ++ quoted "description" ++ ": " ++
    quoted "How long to wait for a response (default: 60, max: 300)" ++ nl ++
  "    }," ++ nl ++
  "    " ++ quoted "wait" ++ ": {" ++ nl ++
  "      " ++ quoted "type" ++ ": " ++ quoted "boolean" ++ "," ++ nl ++
  "      " ++ quoted "description" ++ ": " ++
    quoted "Whether to wait for completion (default: true). If false, returns immediately." ++ nl ++
  "    }".

Definition schemaTail : string :=
  nl ++ "  }" ++ nl ++ "}".

Definition modelPropHead : string :=
  "," ++ nl ++
  "    " ++ quoted "model" ++ ": {" ++ nl ++
  "      " ++ quoted "type" ++ ": " ++ quoted "string" ++ "," ++ nl ++
  "      " ++ quoted "description" ++ ": " ++
    quoted "LLM model for the subagent. Defaults to the parent conversation's model." ++
    "," ++ nl ++
  "      " ++ quoted "enum" ++ ": [".

Definition modelPropTail : string :=
  "]" ++ nl ++ "    }".

Section Descriptor.
(** [fmt.Sprintf("%q", id)] is [strconv.Quote id]: the Go-syntax string
    literal for [id].  Its escaping rules are library code. *)
Variable strconv_Quote : string -> string.

Definition subagentInputSchema (s : SubagentTool) : string :=
  let modelProp := "" in
  let modelProp :=
    if (0 <? List.length (AvailableModels s))%nat then
      let enumItems :=
        fold_left (fun enumItems m => (enumItems ++ [strconv_Quote (ID m)])%list)
                  (AvailableModels s) [] in
      modelPropHead ++ strings.Join enumItems ", " ++ modelPropTail
    else modelProp in
  schemaHead ++ modelProp ++ schemaTail.

End Descriptor.

(** The bulleted list in the words of the specification: "each entry
    renders as [- <id> (<display_name>)] when a distinct display name is
    present, else [- <id>]; a display name equal to the id is treated as
    absent". *)
Module DescriptorSpec.

Definition hasDistinctDisplayName (m : AvailableModel) : bool :=
  negb (String.eqb (DisplayName m) "") && negb (String.eqb (DisplayName m) (ID m)).

Definition entry (m : AvailableModel) : string :=
  if hasDistinctDisplayName m
  then "- " ++ ID m ++ " (" ++ DisplayName m ++ ")"
  else "- " ++ ID m.

(** One entry per model, each on a line of its own, in registry order. *)
Definition bulletedList (models : list AvailableModel) : string :=
  String.concat "" (map (fun m => nl ++ entry m) models).

End DescriptorSpec.

(** What "the schema has a [model] field" and "the description lists the
    models" mean on the generated texts: the schema has a property named
    [model]; the description has the "Available models" section and, in it,
    the entry of every model of the registry on a line of its own. *)
Definition schemaHasModelField (schema : string) : bool :=
  strings.Contains schema (quoted "model" ++ ":").

Definition descriptionListsModels (description : string)
    (models : list AvailableModel) : bool :=
  strings.Contains description "Available models"
  && forallb (fun m => strings.Contains description (nl ++ DescriptorSpec.entry m))
             models.

(** ** The executor [SubagentTool.Run] *)

Definition setSlug (req : subagentInput) (v : string) : subagentInput :=
  {| Slug := v; Prompt := Prompt req; TimeoutSeconds := TimeoutSeconds req;
     Wait := Wait req; Model := Model req |}.

Definition setTimeoutSeconds (req : subagentInput) (v : Z) : subagentInput :=
  {| Slug := Slug req; Prompt := Prompt req; TimeoutSeconds := v;
     Wait := Wait req; Model := Model req |}.

Definition slugNoteFor (actualSlug : string) : string :=
  " (Note: slug was changed to '" ++ actualSlug ++
  "' for uniqueness. Use '" ++ actualSlug ++
  "' for future messages to this subagent.)".

Section Executor.
(** [json.Unmarshal(m, &req)]: the decoder of [encoding/json], from the raw
    message to the request or a decoding error.  A field the message leaves
    out has its zero value: [""], [0], [None]. *)
Variable json_Unmarshal : string -> result subagentInput.
Variable strconv_Quote : string -> string.
Variable ToLowerCase : rune -> rune.

Definition Run (s : SubagentTool) (m : string) : Prog ToolOut :=
  match json_Unmarshal m with
  | Err err => Ret (llm.ErrorfToolOut ("failed to parse subagent input: " ++ err))
  | Ok req =>
    (* Validate slug *)
    if String.eqb (Slug req) "" then Ret (llm.ErrorfToolOut "slug is required") else
    let req := setSlug req (sanitizeSlug ToLowerCase (Slug req)) in
    if String.eqb (Slug req) "" then
      Ret (llm.ErrorfToolOut "slug must contain alphanumeric characters") else
    if String.eqb (Prompt req) "" then Ret (llm.ErrorfToolOut "prompt is required") else
    (* Set defaults; [time.Duration(n) * time.Second] is an int64 product *)
    let timeout := 60 * time.Second in
    let '(req, timeout) :=
      if TimeoutSeconds req >? 0 then
        let req := if TimeoutSeconds req >? 300 then setTimeoutSeconds req 300 else req in
        (req, time.int64 (TimeoutSeconds req * time.Second))
      else (req, timeout) in
    let wait := true in
    let wait := match Wait req with Some b => b | None => wait end in
    (* Get or create the conversation, then use the runner *)
    let dispatch (modelID : string) : Prog ToolOut :=
      GetOrCreateSubagentConversation
        {| db_slug := Slug req; db_parentID := ParentConversationID s;
           db_cwd := WorkingDir s |}
        (fun bound =>
         match bound with
         | Err err =>
           Ret (llm.ErrorfToolOut ("failed to get/create subagent conversation: " ++ err))
         | Ok (conversationID, actualSlug) =>
           RunSubagent
             {| run_conversationID := conversationID; run_prompt := Prompt req;
                run_wait := wait; run_timeout := timeout; run_modelID := modelID |}
             (fun ran =>
              match ran with
              | Err err => Ret (llm.ErrorfToolOut ("subagent error: " ++ err))
              | Ok response =>
                let slugNote := "" in
                let slugNote :=
                  if negb (String.eqb actualSlug (Slug req))
                  then slugNoteFor actualSlug else slugNote in
                Ret {| llm.LLMContent :=
                         llm.TextContent ("Subagent '" ++ actualSlug ++ "' response:"
                                          ++ slugNote ++ nl ++ response);
                       llm.Display :=
                         Some {| SubagentDisplayData.Slug := actualSlug;
                                 SubagentDisplayData.ConversationID := conversationID |};
                       llm.Error := None |}
              end)
         end) in
    (* Determine which model to use: explicit choice > parent's model *)
    let modelID := ModelID s in
    if negb (String.eqb (Model req) "") then
      if (0 <? List.length (AvailableModels s))%nat then
        let found := existsb (fun m => String.eqb (ID m) (Model req)) (AvailableModels s) in
        if negb found then
          let ids := map ID (AvailableModels s) in
          Ret (llm.ErrorfToolOut ("unknown model " ++ strconv_Quote (Model req)
                                  ++ "; available: " ++ strings.Join ids ", "))
        else dispatch (Model req)
      else dispatch (Model req)
    else dispatch modelID
  end.

End Executor.

(** ** Running a computation against implementations of the interfaces *)

Class SubagentDB (D : Type) := {
  DB_GetOrCreateSubagentConversation : D -> DBCall -> result (string * string) * D }.

Class SubagentRunner (R : Type) := {
  Runner_RunSubagent : R -> RunnerCall -> result string * R }.

(** The calls made, in order, each with the answer it got. *)
Inductive Event : Type :=
| DBEvent (c : DBCall) (answer : result (string * string))
| RunnerEvent (c : RunnerCall) (answer : result string).

Fixpoint exec {D R A : Type} `{SubagentDB D} `{SubagentRunner R}
    (p : Prog A) (db : D) (runner : R) : A * D * R * list Event :=
  match p with
  | Ret a => (a, db, runner, [])
  | GetOrCreateSubagentConversation c k =>
    let (answer, db) := DB_GetOrCreateSubagentConversation db c in
    let '(a, db, runner, events) := exec (k answer) db runner in
    (a, db, runner, DBEvent c answer :: events)
  | RunSubagent c k =>
    let (answer, runner) := Runner_RunSubagent runner c in
    let '(a, db, runner, events) := exec (k answer) db runner in
    (a, db, runner, RunnerEvent c answer :: events)
  end.

Definition runnerCalls (events : list Event) : list RunnerCall :=
  flat_map (fun e => match e with RunnerEvent c _ => [c] | DBEvent _ _ => [] end) events.

(** ** The implementations used by the tests *)

Fixpoint lookup (key : string) (m : list (string * string)) : option string :=
  match m with
  | [] => None
  | (k, v) :: rest => if String.eqb k key then Some v else lookup key rest
  end.

Record mockSubagentDB := { conversations : list (string * string) }.

Definition newMockSubagentDB : mockSubagentDB := {| conversations := [] |}.

#[export] Instance mockSubagentDB_SubagentDB : SubagentDB mockSubagentDB := {
  DB_GetOrCreateSubagentConversation m c :=
    let key := db_parentID c ++ ":" ++ db_slug c in
    match lookup key (conversations m) with
    | Some id => (Ok (id, db_slug c), m)
    | None =>
      let id := "subagent-" ++ db_slug c in
      (Ok (id, db_slug c), {| conversations := (key, id) :: conversations m |})
    end }.

Record mockSubagentRunner := {
  response : string;
  err : option error;
  lastModelID : string }.

#[export] Instance mockSubagentRunner_SubagentRunner : SubagentRunner mockSubagentRunner := {
  Runner_RunSubagent m c :=
    let m := {| response := response m; err := err m; lastModelID := run_modelID c |} in
    match err m with
    | Some e => (Err e, m)
    | None => (Ok (response m), m)
    end }.

(** A directory in which the requested slug is taken: it binds every request
    to the slug with the suffix [-2]. *)
Record suffixingDB := { allocated : nat }.

#[export] Instance suffixingDB_SubagentDB : SubagentDB suffixingDB := {
  DB_GetOrCreateSubagentConversation d c :=
    (Ok ("conv-" ++ db_slug c ++ "-2", db_slug c ++ "-2"),
     {| allocated := S (allocated d) |}) }.

(** Stand-ins for the library functions in closed examples: a decoder that
    knows one message per request, and [strconv.Quote] on identifiers made
    of printable ASCII without quotes or backslashes. *)
Definition decodeAs (req : subagentInput) (m : string) : result subagentInput :=
  if String.eqb m "request" then Ok req else Err "invalid character".

Definition quotePlain (s : string) : string := quoted s.

Definition asciiOnly (r : rune) : rune := r.

(** ** The steps of the executor in the words of the specification *)
Module ExecutorSpec.

(** "[model] must be a member of the registry". *)
Definition registryMember (s : SubagentTool) (id : string) : Prop :=
  In id (map ID (AvailableModels s)).

(** A model override is rejected: one is supplied, the registry is not
    empty and does not list it. *)
Definition modelRejected (s : SubagentTool) (req : subagentInput) : Prop :=
  Model req <> "" /\ AvailableModels s <> [] /\ ~ registryMember s (Model req).

Definition modelAccepted (s : SubagentTool) (req : subagentInput) : Prop :=
  Model req = "" \/ AvailableModels s = [] \/ registryMember s (Model req).

(** The validation steps: empty slug, slug sanitizing to empty, empty
    prompt, rejected model. *)
Definition failsValidation (f : rune -> rune) (s : SubagentTool)
    (req : subagentInput) : Prop :=
  Slug req = "" \/ sanitizeSlug f (Slug req) = "" \/ Prompt req = "" \/
  modelRejected s req.

Definition passesValidation (f : rune -> rune) (s : SubagentTool)
    (req : subagentInput) : Prop :=
  Slug req <> "" /\ sanitizeSlug f (Slug req) <> "" /\ Prompt req <> "" /\
  modelAccepted s req.

(** Step 4: default 60s, clamp above at 300s, values <= 0 use the default. *)
Definition resolveTimeout (timeout_seconds : Z) : time.Duration :=
  if timeout_seconds <=? 0 then 60 * time.Second
  else if timeout_seconds <=? 300 then timeout_seconds * time.Second
  else 300 * time.Second.

(** Step 5: default [true], the explicit value when supplied. *)
Definition resolveWait (w : option bool) : bool :=
  match w with Some b => b | None => true end.

(** Step 6: the request's model if non-empty, else the parent's. *)
Definition selectModel (s : SubagentTool) (req : subagentInput) : string :=
  if String.eqb (Model req) "" then ModelID s else Model req.

(** Step 9: the reply. *)
Definition composeReply (requested conversationID actualSlug response : string) : ToolOut :=
  {| llm.LLMContent :=
       llm.TextContent
         ("Subagent '" ++ actualSlug ++ "' response:" ++
          (if negb (String.eqb actualSlug requested)
           then " (Note: slug was changed to '" ++ actualSlug ++
                "' for uniqueness. Use '" ++ actualSlug ++
                "' for future messages to this subagent.)"
           else "") ++
          nl ++ response);
     llm.Display :=
       Some {| SubagentDisplayData.Slug := actualSlug;
               SubagentDisplayData.ConversationID := conversationID |};
     llm.Error := None |}.

(** Steps 7 to 9: bind the child, dispatch, compose the reply. *)
Definition bindAndDispatch (s : SubagentTool) (slug prompt : string)
    (wait : bool) (timeout : time.Duration) (modelID : string) : Prog ToolOut :=
  GetOrCreateSubagentConversation
    {| db_slug := slug; db_parentID := ParentConversationID s; db_cwd := WorkingDir s |}
    (fun bound =>
     match bound with
     | Err err =>
       Ret (llm.ErrorfToolOut ("failed to get/create subagent conversation: " ++ err))
     | Ok (conversationID, actualSlug) =>
       RunSubagent
         {| run_conversationID := conversationID; run_prompt := prompt;
            run_wait := wait; run_timeout := timeout; run_modelID := modelID |}
         (fun ran =>
          match ran with
          | Err err => Ret (llm.ErrorfToolOut ("subagent error: " ++ err))
          | Ok response => Ret (composeReply slug conversationID actualSlug response)
          end)
     end).

End ExecutorSpec.

(** ** The tools and requests of the tests *)
Module Examples.

Definition registryTool : SubagentTool :=
  {| ParentConversationID := "parent-123"; WorkingDir := "/tmp";
     ModelID := "claude-sonnet-4-20250514";
     AvailableModels :=
       [ {| ID := "claude-sonnet-4-20250514"; DisplayName := "" |};
         {| ID := "claude-haiku-4.5"; DisplayName := "Claude Haiku 4.5" |} ] |}.

Definition noModelsTool : SubagentTool :=
  {| ParentConversationID := "parent-123"; WorkingDir := "/tmp";
     ModelID := "some-model"; AvailableModels := [] |}.

Definition request (slug prompt : string) (timeout_seconds : Z) (model : string)
  : subagentInput :=
  {| Slug := slug; Prompt := prompt; TimeoutSeconds := timeout_seconds;
     Wait := None; Model := model |}.

Definition okRunner : mockSubagentRunner :=
  {| response := "Task completed successfully"; err := None; lastModelID := "" |}.

End Examples.

(** ** Further vocabulary for the properties of the executor and sanitizer *)

Definition dbCalls (events : list Event) : list DBCall :=
  flat_map (fun e => match e with DBEvent c _ => [c] | RunnerEvent _ _ => [] end) events.

(** The output, and the events, of a finished run. *)
Definition outputOf {A D R : Type} (x : A * D * R * list Event) : A := fst (fst (fst x)).
Definition eventsOf {A D R : Type} (x : A * D * R * list Event) : list Event := snd x.

(** The letters and digits of the slug alphabet, on runes and on bytes. *)
Definition isAlnumRune (r : rune) : bool :=
  ((byteZ "a" <=? r) && (r <=? byteZ "z")) || ((byteZ "0" <=? r) && (r <=? byteZ "9")).

Definition isHyphenByte (c : ascii) : bool := Ascii.eqb c "-".

(** A well-formed slug: bytes of [[a-z0-9-]] only, no hyphen at either end,
    no two hyphens in a row. *)
Definition wellFormedSlug (t : string) : Prop :=
  allBytes isSlugByte t = true /\
  strings.HasPrefix t "-" = false /\
  strings.HasSuffix t "-" = false /\
  strings.Contains t "--" = false.

(** A directory whose storage fails on every request. *)
Record failingDB := { failure : error }.

#[export] Instance failingDB_SubagentDB : SubagentDB failingDB := {
  DB_GetOrCreateSubagentConversation d c := (Err (failure d), d) }.

(** The directory and the runner a finished run leaves behind. *)
Definition dbOf {A D R : Type} (x : A * D * R * list Event) : D := snd (fst (fst x)).
Definition runnerOf {A D R : Type} (x : A * D * R * list Event) : R := snd (fst x).

(** Two input bytes the sanitizer does not tell apart: the same byte, two of
    the separators space, underscore and hyphen, or the same ASCII letter
    in either case. *)
Definition isSeparatorByte (c : ascii) : bool :=
  Ascii.eqb c " " || Ascii.eqb c "_" || Ascii.eqb c "-".

Definition asciiLowerByte (c : ascii) : ascii :=
  if (byteZ "A" <=? byteZ c) && (byteZ c <=? byteZ "Z")
  then byteOf (byteZ c + (byteZ "a" - byteZ "A")) else c.

Definition sameSlugByte (c d : ascii) : bool :=
  Ascii.eqb c d
  || (isSeparatorByte c && isSeparatorByte d)
  || ((byteZ c <? 128) && (byteZ d <? 128)
      && Ascii.eqb (asciiLowerByte c) (asciiLowerByte d)).

Fixpoint sameSlugInput (s t : string) : bool :=
  match s, t with
  | EmptyString, EmptyString => true
  | String c s', String d t' => sameSlugByte c d && sameSlugInput s' t'
  | _, _ => false
  end.

(** * Properties *)

(** ** Bytes and strings *)

Lemma byteZ_range (c : ascii) : 0 <= byteZ c < 256.
Proof.
  unfold byteZ. pose proof (N_ascii_bounded c). lia.
Qed.

Lemma byteOf_byteZ (c : ascii) : byteOf (byteZ c) = c.
Proof.
  unfold byteOf. rewrite Z.mod_small by apply byteZ_range.
  unfold byteZ. rewrite N2Z.id. apply ascii_N_embedding.
Qed.

Lemma byteZ_byteOf (z : Z) : 0 <= z < 256 -> byteZ (byteOf z) = z.
Proof.
  intros Hz. unfold byteOf, byteZ. rewrite Z.mod_small by assumption.
  rewrite N_ascii_embedding by lia. lia.
Qed.

Lemma byteZ_inj (c d : ascii) : byteZ c = byteZ d -> c = d.
Proof.
  intros E. rewrite <- (byteOf_byteZ c), <- (byteOf_byteZ d). now rewrite E.
Qed.

Lemma ascii_eqb_byteZ (c d : ascii) : Ascii.eqb c d = (byteZ c =? byteZ d).
Proof.
  destruct (Ascii.eqb_spec c d) as [->|N].
  - symmetry. apply Z.eqb_refl.
  - symmetry. apply Z.eqb_neq. intros E. apply N. now apply byteZ_inj.
Qed.

Lemma append_assoc (a b c : string) : (a ++ b) ++ c = a ++ (b ++ c).
Proof.
  induction a as [|x a IH]; cbn; [reflexivity | now rewrite IH].
Qed.

Lemma append_empty_r (a : string) : a ++ "" = a.
Proof.
  induction a as [|x a IH]; cbn; [reflexivity | now rewrite IH].
Qed.

Lemma append_length (a b : string) :
  String.length (a ++ b) = (String.length a + String.length b)%nat.
Proof.
  induction a as [|x a IH]; cbn; [reflexivity | now rewrite IH].
Qed.

(** Constants of the source as numerals, for arithmetic. *)
Ltac rune_consts :=
  change (byteZ "a") with 97 in *; change (byteZ "z") with 122 in *;
  change (byteZ "0") with 48 in *; change (byteZ "9") with 57 in *;
  change (byteZ "-") with 45 in *; change (byteZ " ") with 32 in *;
  change (byteZ "_") with 95 in *;
  change (byteZ SanitizerSpec.hyphen) with 45 in *.

Ltac bool_to_Z :=
  repeat match goal with
  | H : _ && _ = true |- _ => apply andb_true_iff in H; destruct H
  | H : _ || _ = true |- _ => apply orb_true_iff in H; destruct H
  | H : _ && _ = false |- _ => apply andb_false_iff in H
  | H : _ || _ = false |- _ => apply orb_false_iff in H; destruct H
  | H : (_ <=? _) = true |- _ => apply Z.leb_le in H
  | H : (_ <=? _) = false |- _ => apply Z.leb_gt in H
  | H : (_ <? _) = true |- _ => apply Z.ltb_lt in H
  | H : (_ <? _) = false |- _ => apply Z.ltb_ge in H
  | H : (_ =? _) = true |- _ => apply Z.eqb_eq in H
  | H : (_ =? _) = false |- _ => apply Z.eqb_neq in H
  end.

(** ** The first loop of [sanitizeSlug] *)

Lemma inAlphabet_range (r : rune) :
  SanitizerSpec.inAlphabet r = true -> 45 <= r <= 122.
Proof.
  unfold SanitizerSpec.inAlphabet. rune_consts. intros H. bool_to_Z; lia.
Qed.

Lemma EncodeRune_ascii (r : rune) :
  0 <= r <= 127 -> utf8.EncodeRune r = String (byteOf r) "".
Proof.
  intros Hr. unfold utf8.EncodeRune.
  destruct (Z.leb_spec 0 r); [|lia]. destruct (Z.leb_spec r 0x7F); [|lia].
  reflexivity.
Qed.

Lemma sanitizeStep_spec (acc : string) (r : rune) :
  sanitizeStep acc r =
  acc ++ SanitizerSpec.text (SanitizerSpec.dropForeign (SanitizerSpec.mapSeparators [r])).
Proof.
  unfold sanitizeStep, SanitizerSpec.mapSeparators, SanitizerSpec.dropForeign.
  cbn [map filter].
  change (((byteZ "a" <=? r) && (r <=? byteZ "z"))
          || ((byteZ "0" <=? r) && (r <=? byteZ "9")) || (r =? byteZ "-"))
    with (SanitizerSpec.inAlphabet r).
  destruct (SanitizerSpec.inAlphabet r) eqn:A.
  - pose proof (inAlphabet_range r A) as Hr.
    assert ((r =? byteZ " ") || (r =? byteZ "_") = false) as ->.
    { pose proof A as A'. unfold SanitizerSpec.inAlphabet in A'. rune_consts.
      apply orb_false_iff. split; apply Z.eqb_neq; bool_to_Z; lia. }
    rewrite A. cbn [SanitizerSpec.text]. unfold WriteRune.
    rewrite EncodeRune_ascii by lia. reflexivity.
  - destruct ((r =? byteZ " ") || (r =? byteZ "_")) eqn:B.
    + change (SanitizerSpec.inAlphabet (byteZ SanitizerSpec.hyphen)) with true.
      cbn [SanitizerSpec.text]. reflexivity.
    + rewrite A. cbn [SanitizerSpec.text]. now rewrite append_empty_r.
Qed.

Lemma firstLoop_spec (rs : list rune) (acc : string) :
  fold_left sanitizeStep rs acc =
  acc ++ SanitizerSpec.text (SanitizerSpec.dropForeign (SanitizerSpec.mapSeparators rs)).
Proof.
  revert acc. induction rs as [|r rs IH]; intros acc.
  - cbn. now rewrite append_empty_r.
  - cbn [fold_left]. rewrite IH, sanitizeStep_spec, append_assoc. f_equal.
    unfold SanitizerSpec.mapSeparators, SanitizerSpec.dropForeign.
    cbn [map filter].
    destruct (SanitizerSpec.inAlphabet _); reflexivity.
Qed.

(** ** The collapsing loop *)

Lemma replace_cons2 (c a : ascii) (t : string) :
  strings.ReplaceAll (String c (String a t)) "--" "-" =
  if Ascii.eqb c "-" && Ascii.eqb a "-"
  then String "-" (strings.ReplaceAll t "--" "-")
  else String c (strings.ReplaceAll (String a t) "--" "-").
Proof.
  unfold strings.ReplaceAll.
  cbn [strings.replaceFrom strings.HasPrefix String.length Nat.pred].
  rewrite andb_true_r.
  destruct (Ascii.eqb c "-" && Ascii.eqb a "-"); reflexivity.
Qed.

Lemma replace_single (c : ascii) : strings.ReplaceAll (String c "") "--" "-" = String c "".
Proof.
  unfold strings.ReplaceAll. cbn. destruct (Ascii.eqb c "-"); reflexivity.
Qed.

Lemma contains_cons (c : ascii) (t : string) :
  strings.Contains (String c t) "--" =
  (Ascii.eqb c "-" && strings.HasPrefix t "-") || strings.Contains t "--".
Proof.
  cbn [strings.Contains strings.HasPrefix].
  destruct t as [|a t]; cbn [strings.HasPrefix]; [|rewrite andb_true_r]; reflexivity.
Qed.

Lemma hasPrefix_hyphen_cons (a : ascii) (t : string) :
  strings.HasPrefix (String a t) "-" = Ascii.eqb a "-".
Proof.
  cbn. apply andb_true_r.
Qed.

Lemma string_length_ind (P : string -> Prop) :
  P "" -> (forall c, P (String c "")) ->
  (forall c a t, P t -> P (String a t) -> P (String c (String a t))) ->
  forall s, P s.
Proof.
  intros P0 P1 P2 s.
  enough (H : P s /\ forall c, P (String c s)) by apply H.
  induction s as [|a t [IH1 IH2]].
  - split; [exact P0 | exact P1].
  - split; [apply IH2 | intros c; apply P2; [exact IH1 | apply IH2]].
Qed.

Lemma replace_head (t : string) :
  strings.HasPrefix (strings.ReplaceAll t "--" "-") "-" = strings.HasPrefix t "-".
Proof.
  induction t as [| c | c a t _ _] using string_length_ind.
  - reflexivity.
  - now rewrite replace_single.
  - rewrite replace_cons2.
    destruct (Ascii.eqb c "-") eqn:C; cbn [andb].
    + destruct (Ascii.eqb a "-"); rewrite !hasPrefix_hyphen_cons, ?C; reflexivity.
    + now rewrite !hasPrefix_hyphen_cons.
Qed.

Lemma collapseRuns_cons (c : ascii) (t : string) :
  SanitizerSpec.collapseRuns (String c t) =
  if Ascii.eqb c "-" && strings.HasPrefix t "-"
  then SanitizerSpec.collapseRuns t
  else String c (SanitizerSpec.collapseRuns t).
Proof. reflexivity. Qed.

Lemma collapseRuns_replace (t : string) :
  SanitizerSpec.collapseRuns (strings.ReplaceAll t "--" "-") = SanitizerSpec.collapseRuns t.
Proof.
  induction t as [| c | c a t IH1 IH2] using string_length_ind.
  - reflexivity.
  - now rewrite replace_single.
  - rewrite replace_cons2.
    destruct (Ascii.eqb c "-") eqn:C; cbn [andb].
    + destruct (Ascii.eqb a "-") eqn:A.
      * rewrite (collapseRuns_cons c), hasPrefix_hyphen_cons, C, A. cbn [andb].
        rewrite (collapseRuns_cons a), A. cbn [andb].
        rewrite collapseRuns_cons, replace_head, IH1.
        change (Ascii.eqb "-" "-") with true. cbn [andb].
        destruct (strings.HasPrefix t "-"); [reflexivity|].
        apply Ascii.eqb_eq in A. now subst a.
      * rewrite !(collapseRuns_cons c), replace_head, IH2. reflexivity.
    + rewrite !(collapseRuns_cons c), C. cbn [andb]. now rewrite IH2.
Qed.

Lemma collapseRuns_fixed (t : string) :
  strings.Contains t "--" = false -> SanitizerSpec.collapseRuns t = t.
Proof.
  induction t as [|c t IH]; [reflexivity|].
  rewrite contains_cons, collapseRuns_cons. intros H.
  apply orb_false_iff in H. destruct H as [-> H]. now rewrite IH.
Qed.

Lemma collapseLoop_exit (s : string) : strings.Contains (collapseLoop s) "--" = false.
Proof.
  funelim (collapseLoop s); [assumption|].
  match goal with E : strings.Contains _ _ = false |- _ => exact E end.
Qed.

Lemma collapseLoop_spec (s : string) : collapseLoop s = SanitizerSpec.collapseRuns s.
Proof.
  funelim (collapseLoop s).
  - match goal with IH : collapseLoop _ = SanitizerSpec.collapseRuns _ |- _ =>
      rewrite IH end.
    apply collapseRuns_replace.
  - symmetry. now apply collapseRuns_fixed.
Qed.

Lemma collapseLoop_fixed (s : string) :
  strings.Contains s "--" = false -> collapseLoop s = s.
Proof.
  intros H. rewrite collapseLoop_spec. now apply collapseRuns_fixed.
Qed.

(** ** Trimming *)

Lemma inCutset_hyphen (c : ascii) : strings.inCutset "-" c = Ascii.eqb c "-".
Proof. cbn. apply orb_false_r. Qed.

Lemma TrimLeft_hyphen (s : string) : strings.TrimLeft s "-" = SanitizerSpec.dropLeading s.
Proof.
  induction s as [|c s IH]; [reflexivity|].
  cbn [strings.TrimLeft SanitizerSpec.dropLeading]. rewrite inCutset_hyphen, IH.
  reflexivity.
Qed.

Lemma TrimRight_cons (c : ascii) (s : string) :
  strings.TrimRight (String c s) "-" =
  match strings.TrimRight s "-" with
  | EmptyString => if Ascii.eqb c "-" then EmptyString else String c EmptyString
  | kept => String c kept
  end.
Proof.
  cbn [strings.TrimRight]. now rewrite inCutset_hyphen.
Qed.

Lemma reverse_app (a b : string) :
  SanitizerSpec.reverse (a ++ b) = SanitizerSpec.reverse b ++ SanitizerSpec.reverse a.
Proof.
  induction a as [|x a IH]; cbn.
  - now rewrite append_empty_r.
  - now rewrite IH, append_assoc.
Qed.

Lemma dropLeading_snoc (u : string) (c : ascii) :
  SanitizerSpec.dropLeading (u ++ String c "") =
  match SanitizerSpec.dropLeading u with
  | EmptyString => if Ascii.eqb c "-" then EmptyString else String c EmptyString
  | kept => kept ++ String c ""
  end.
Proof.
  induction u as [|x u IH]; [reflexivity|].
  cbn [String.append SanitizerSpec.dropLeading].
  destruct (Ascii.eqb x SanitizerSpec.hyphen); [exact IH | reflexivity].
Qed.

Lemma TrimRight_spec (s : string) :
  strings.TrimRight s "-" =
  SanitizerSpec.reverse (SanitizerSpec.dropLeading (SanitizerSpec.reverse s)).
Proof.
  induction s as [|c s IH]; [reflexivity|].
  rewrite TrimRight_cons, IH. cbn [SanitizerSpec.reverse].
  rewrite dropLeading_snoc.
  destruct (SanitizerSpec.dropLeading (SanitizerSpec.reverse s)) as [|k ks].
  - cbn. destruct (Ascii.eqb c "-"); reflexivity.
  - rewrite reverse_app. cbn [SanitizerSpec.reverse String.append].
    destruct (SanitizerSpec.reverse ks ++ String k "") eqn:E; [|reflexivity].
    apply (f_equal String.length) in E. rewrite append_length in E.
    cbn in E. lia.
Qed.

Lemma Trim_spec (s : string) : strings.Trim s "-" = SanitizerSpec.trimHyphens s.
Proof.
  unfold strings.Trim, SanitizerSpec.trimHyphens.
  now rewrite TrimLeft_hyphen, TrimRight_spec.
Qed.

Lemma TrimRight_head (s : string) (a : ascii) (k : string) :
  strings.TrimRight s "-" = String a k -> exists rest, s = String a rest.
Proof.
  destruct s as [|c s]; [discriminate|].
  rewrite TrimRight_cons.
  destruct (strings.TrimRight s "-").
  - destruct (Ascii.eqb c "-"); [discriminate|]. intros [= -> _]. now exists s.
  - intros [= -> _]. now exists s.
Qed.

Lemma TrimLeft_no_lead (s : string) :
  strings.HasPrefix (strings.TrimLeft s "-") "-" = false.
Proof.
  induction s as [|c s IH]; [reflexivity|].
  cbn [strings.TrimLeft]. rewrite inCutset_hyphen.
  destruct (Ascii.eqb c "-") eqn:C; [exact IH|].
  now rewrite hasPrefix_hyphen_cons.
Qed.

Lemma hasSuffix_cons (c : ascii) (s : string) :
  strings.HasSuffix (String c s) "-" =
  String.eqb (String c s) "-" || strings.HasSuffix s "-".
Proof. reflexivity. Qed.

Lemma TrimRight_no_trail (s : string) :
  strings.HasSuffix (strings.TrimRight s "-") "-" = false.
Proof.
  induction s as [|c s IH]; [reflexivity|].
  rewrite TrimRight_cons.
  destruct (strings.TrimRight s "-") as [|k ks].
  - destruct (Ascii.eqb c "-") eqn:C; [reflexivity|].
    cbn. rewrite C. reflexivity.
  - rewrite hasSuffix_cons, IH, orb_false_r.
    cbn. destruct (Ascii.eqb c "-"); reflexivity.
Qed.

Lemma TrimLeft_keeps_no_trail (s : string) :
  strings.HasSuffix s "-" = false ->
  strings.HasSuffix (strings.TrimLeft s "-") "-" = false.
Proof.
  induction s as [|c s IH]; [reflexivity|].
  intros H. cbn [strings.TrimLeft]. rewrite inCutset_hyphen.
  destruct (Ascii.eqb c "-"); [|exact H].
  apply IH. rewrite hasSuffix_cons in H. now apply orb_false_iff in H.
Qed.

Lemma TrimLeft_keeps_no_double (s : string) :
  strings.Contains s "--" = false ->
  strings.Contains (strings.TrimLeft s "-") "--" = false.
Proof.
  induction s as [|c s IH]; [reflexivity|].
  intros H. cbn [strings.TrimLeft]. rewrite inCutset_hyphen.
  destruct (Ascii.eqb c "-"); [|exact H].
  apply IH. rewrite contains_cons in H. now apply orb_false_iff in H.
Qed.

Lemma TrimRight_keeps_no_double (s : string) :
  strings.Contains s "--" = false ->
  strings.Contains (strings.TrimRight s "-") "--" = false.
Proof.
  induction s as [|c s IH]; [reflexivity|].
  rewrite contains_cons. intros H. apply orb_false_iff in H. destruct H as [H1 H2].
  rewrite TrimRight_cons. specialize (IH H2).
  destruct (strings.TrimRight s "-") as [|k ks] eqn:E.
  - destruct (Ascii.eqb c "-") eqn:C; [reflexivity|].
    rewrite contains_cons, C. reflexivity.
  - rewrite contains_cons, IH, orb_false_r.
    apply TrimRight_head in E. destruct E as [rest ->].
    rewrite hasPrefix_hyphen_cons in *. exact H1.
Qed.

Lemma TrimLeft_fixed (s : string) :
  strings.HasPrefix s "-" = false -> strings.TrimLeft s "-" = s.
Proof.
  destruct s as [|c s]; [reflexivity|].
  rewrite hasPrefix_hyphen_cons. intros C.
  cbn [strings.TrimLeft]. now rewrite inCutset_hyphen, C.
Qed.

Lemma TrimRight_fixed (s : string) :
  strings.HasSuffix s "-" = false -> strings.TrimRight s "-" = s.
Proof.
  induction s as [|c s IH]; [reflexivity|].
  rewrite hasSuffix_cons. intros H. apply orb_false_iff in H. destruct H as [H1 H2].
  rewrite TrimRight_cons, (IH H2).
  destruct s; [|reflexivity].
  cbn in H1. destruct (Ascii.eqb c "-"); [discriminate | reflexivity].
Qed.

Lemma allBytes_app (p : ascii -> bool) (a b : string) :
  allBytes p (a ++ b) = allBytes p a && allBytes p b.
Proof.
  induction a as [|x a IH]; cbn; [reflexivity | now rewrite IH, andb_assoc].
Qed.

Lemma allBytes_TrimLeft (p : ascii -> bool) (s : string) :
  allBytes p s = true -> allBytes p (strings.TrimLeft s "-") = true.
Proof.
  induction s as [|c s IH]; [reflexivity|].
  intros H. cbn [strings.TrimLeft].
  destruct (strings.inCutset "-" c); [|exact H].
  apply IH. cbn in H. now apply andb_true_iff in H.
Qed.

Lemma allBytes_TrimRight (p : ascii -> bool) (s : string) :
  allBytes p s = true -> allBytes p (strings.TrimRight s "-") = true.
Proof.
  induction s as [|c s IH]; [reflexivity|].
  intros H. cbn in H. apply andb_true_iff in H. destruct H as [H1 H2].
  rewrite TrimRight_cons. specialize (IH H2).
  destruct (strings.TrimRight s "-").
  - destruct (Ascii.eqb c "-"); cbn; [reflexivity | now rewrite H1].
  - cbn [allBytes] in *. now rewrite H1, IH.
Qed.

Lemma allBytes_collapseRuns (p : ascii -> bool) (s : string) :
  allBytes p s = true -> allBytes p (SanitizerSpec.collapseRuns s) = true.
Proof.
  induction s as [|c s IH]; [reflexivity|].
  intros H. cbn in H. apply andb_true_iff in H. destruct H as [H1 H2].
  rewrite collapseRuns_cons.
  destruct (Ascii.eqb c "-" && strings.HasPrefix s "-"); [now apply IH|].
  cbn [allBytes]. now rewrite H1, IH.
Qed.

Lemma allBytes_text (rs : list rune) :
  allBytes isSlugByte (SanitizerSpec.text (SanitizerSpec.dropForeign rs)) = true.
Proof.
  induction rs as [|r rs IH]; [reflexivity|].
  unfold SanitizerSpec.dropForeign in *. cbn [filter].
  destruct (SanitizerSpec.inAlphabet r) eqn:A; [|exact IH].
  cbn [SanitizerSpec.text allBytes]. rewrite IH, andb_true_r.
  unfold isSlugByte. rewrite byteZ_byteOf.
  - exact A.
  - apply inAlphabet_range in A. lia.
Qed.

(** ** [sanitizeSlug]: refinement, shape of the result, idempotence *)

Lemma sanitizeSlug_spec (f : rune -> rune) (x : string) :
  sanitizeSlug f x = SanitizerSpec.sanitize f x.
Proof.
  unfold sanitizeSlug, SanitizerSpec.sanitize.
  rewrite firstLoop_spec, collapseLoop_spec, Trim_spec. reflexivity.
Qed.

Lemma sanitizeSlug_shape (f : rune -> rune) (s : string) :
  allBytes isSlugByte (sanitizeSlug f s) = true /\
  strings.HasPrefix (sanitizeSlug f s) "-" = false /\
  strings.HasSuffix (sanitizeSlug f s) "-" = false /\
  strings.Contains (sanitizeSlug f s) "--" = false.
Proof.
  unfold sanitizeSlug, strings.Trim.
  set (built := fold_left sanitizeStep (strings.ToLowerRunes f s) "").
  repeat split.
  - apply allBytes_TrimLeft, allBytes_TrimRight.
    rewrite collapseLoop_spec. apply allBytes_collapseRuns.
    unfold built. rewrite firstLoop_spec. apply allBytes_text.
  - apply TrimLeft_no_lead.
  - apply TrimLeft_keeps_no_trail, TrimRight_no_trail.
  - apply TrimLeft_keeps_no_double, TrimRight_keeps_no_double, collapseLoop_exit.
Qed.

Lemma range_ascii_cons (c : ascii) (t : string) :
  byteZ c < 128 -> utf8.range (String c t) = byteZ c :: utf8.range t.
Proof.
  intros Hc. unfold utf8.range. cbn [utf8.rangeFrom utf8.DecodeRuneInString].
  unfold utf8.RuneSelf. destruct (Z.ltb_spec (byteZ c) 128); [reflexivity | lia].
Qed.

Lemma firstLoop_slug (f : rune -> rune) (t acc : string) :
  allBytes isSlugByte t = true ->
  fold_left sanitizeStep (strings.ToLowerRunes f t) acc = acc ++ t.
Proof.
  revert acc. induction t as [|c t IH]; intros acc H.
  - cbn. now rewrite append_empty_r.
  - cbn in H. apply andb_true_iff in H. destruct H as [Hc Ht].
    assert (R : 45 <= byteZ c <= 122) by (apply inAlphabet_range; exact Hc).
    unfold strings.ToLowerRunes in *. rewrite range_ascii_cons by lia.
    cbn [map fold_left]. rewrite (IH _ Ht).
    assert (L : unicode.ToLower f (byteZ c) = byteZ c).
    { unfold unicode.ToLower, unicode.MaxASCII.
      destruct (Z.leb_spec (byteZ c) 127); [|lia].
      unfold isSlugByte in Hc. rune_consts.
      destruct ((65 <=? byteZ c) && (byteZ c <=? 90)) eqn:U; [|reflexivity].
      bool_to_Z; lia. }
    rewrite L. unfold sanitizeStep.
    change (((byteZ "a" <=? byteZ c) && (byteZ c <=? byteZ "z"))
            || ((byteZ "0" <=? byteZ c) && (byteZ c <=? byteZ "9"))
            || (byteZ c =? byteZ "-")) with (isSlugByte c).
    rewrite Hc. unfold WriteRune. rewrite EncodeRune_ascii by lia.
    rewrite byteOf_byteZ, append_assoc. reflexivity.
Qed.

Lemma sanitizeSlug_fixed (f : rune -> rune) (t : string) :
  allBytes isSlugByte t = true ->
  strings.HasPrefix t "-" = false ->
  strings.HasSuffix t "-" = false ->
  strings.Contains t "--" = false ->
  sanitizeSlug f t = t.
Proof.
  intros A P S C. unfold sanitizeSlug, strings.Trim.
  rewrite (firstLoop_slug f t "" A). cbn [String.append].
  rewrite (collapseLoop_fixed t C), (TrimRight_fixed t S). now apply TrimLeft_fixed.
Qed.

(** C4: [sanitizeSlug] is the algorithm of the specification, pass by pass
    and in its order (lowercase, map separators, drop foreign characters,
    collapse runs of hyphens, trim hyphens), and it yields the results of
    the sanitization table. *)
Theorem C4_sanitizeSlug_refines_spec :
  (forall (f : rune -> rune) (x : string),
     sanitizeSlug f x = SanitizerSpec.sanitize f x) /\
  (forall f : rune -> rune,
     sanitizeSlug f "Test Slug" = "test-slug" /\
     sanitizeSlug f "test_slug" = "test-slug" /\
     sanitizeSlug f "test--slug" = "test-slug" /\
     sanitizeSlug f "-test-slug-" = "test-slug" /\
     sanitizeSlug f "test@slug!" = "testslug" /\
     sanitizeSlug f "123-abc" = "123-abc" /\
     sanitizeSlug f "" = "" /\
     sanitizeSlug f "@#$%" = "").
Proof.
  split.
  - exact sanitizeSlug_spec.
  - intros f. repeat split; reflexivity.
Qed.

(** C5: slug sanitization is idempotent: sanitizing a sanitized slug
    returns it unchanged. *)
Theorem C5_sanitizeSlug_idempotent :
  forall (f : rune -> rune) (x : string),
    sanitizeSlug f (sanitizeSlug f x) = sanitizeSlug f x.
Proof.
  intros f x. destruct (sanitizeSlug_shape f x) as (A & P & S & C).
  now apply sanitizeSlug_fixed.
Qed.

(** C6: for every string, the sanitized slug has only bytes of
    [[a-z0-9-]], neither starts nor ends with a hyphen, and contains no two
    hyphens in a row. *)
Theorem C6_sanitizeSlug_shape :
  forall (f : rune -> rune) (s : string),
    allBytes isSlugByte (sanitizeSlug f s) = true /\
    strings.HasPrefix (sanitizeSlug f s) "-" = false /\
    strings.HasSuffix (sanitizeSlug f s) "-" = false /\
    strings.Contains (sanitizeSlug f s) "--" = false.
Proof.
  exact sanitizeSlug_shape.
Qed.

(** ** The executor *)

Lemma int64_small (z : Z) : - 2 ^ 63 <= z < 2 ^ 63 -> time.int64 z = z.
Proof.
  intros Hz. unfold time.int64. rewrite Z.mod_small; lia.
Qed.

Lemma registry_scan (models : list AvailableModel) (id : string) :
  existsb (fun m => String.eqb (ID m) id) models = true <-> In id (map ID models).
Proof.
  rewrite existsb_exists, in_map_iff. split.
  - intros (m & Hin & E). apply String.eqb_eq in E. now exists m.
  - intros (m & E & Hin). exists m. split; [exact Hin | now apply String.eqb_eq].
Qed.

Lemma registry_nonempty (models : list AvailableModel) :
  (0 <? List.length models)%nat = true <-> models <> [].
Proof.
  destruct models; cbn; split; intros H; congruence.
Qed.

Lemma sanitizeSlug_empty (f : rune -> rune) : sanitizeSlug f "" = "".
Proof. reflexivity. Qed.

Section RunFacts.
Variable unm : string -> result subagentInput.
Variable q : string -> string.
Variable f : rune -> rune.
Variable s : SubagentTool.
Variable m : string.

Lemma Run_decode_error (e : error) :
  unm m = Err e ->
  Run unm q f s m = Ret (llm.ErrorfToolOut ("failed to parse subagent input: " ++ e)).
Proof.
  intros E. unfold Run. now rewrite E.
Qed.

Lemma Run_slug_required (req : subagentInput) :
  unm m = Ok req -> Slug req = "" ->
  Run unm q f s m = Ret (llm.ErrorfToolOut "slug is required").
Proof.
  intros E H. unfold Run. rewrite E, H. reflexivity.
Qed.

Lemma Run_slug_alphanumeric (req : subagentInput) :
  unm m = Ok req -> Slug req <> "" -> sanitizeSlug f (Slug req) = "" ->
  Run unm q f s m = Ret (llm.ErrorfToolOut "slug must contain alphanumeric characters").
Proof.
  intros E H1 H2. unfold Run. rewrite E.
  apply String.eqb_neq in H1. rewrite H1.
  cbn [Slug setSlug]. rewrite H2. reflexivity.
Qed.

Lemma Run_prompt_required (req : subagentInput) :
  unm m = Ok req -> sanitizeSlug f (Slug req) <> "" -> Prompt req = "" ->
  Run unm q f s m = Ret (llm.ErrorfToolOut "prompt is required").
Proof.
  intros E H2 H3. unfold Run. rewrite E.
  assert (H1 : Slug req <> "") by (intros H; apply H2; rewrite H; apply sanitizeSlug_empty).
  apply String.eqb_neq in H1, H2. rewrite H1.
  cbn [Slug Prompt setSlug]. rewrite H2, H3. reflexivity.
Qed.

Lemma Run_unknown_model (req : subagentInput) :
  unm m = Ok req -> sanitizeSlug f (Slug req) <> "" -> Prompt req <> "" ->
  ExecutorSpec.modelRejected s req ->
  Run unm q f s m =
  Ret (llm.ErrorfToolOut ("unknown model " ++ q (Model req) ++ "; available: "
                          ++ strings.Join (map ID (AvailableModels s)) ", ")).
Proof.
  intros E H2 H3 (M1 & M2 & M3). unfold Run. rewrite E.
  assert (H1 : Slug req <> "") by (intros H; apply H2; rewrite H; apply sanitizeSlug_empty).
  apply String.eqb_neq in H1, H2, H3, M1. rewrite H1.
  cbn [Slug Prompt TimeoutSeconds Wait Model setSlug]. rewrite H2, H3.
  apply registry_nonempty in M2.
  assert (M4 : existsb (fun x => String.eqb (ID x) (Model req)) (AvailableModels s) = false).
  { apply not_true_is_false. intros T. apply M3. now apply registry_scan. }
  destruct (TimeoutSeconds req >? 0); [destruct (TimeoutSeconds req >? 300)|];
    cbn [Slug Prompt TimeoutSeconds Wait Model setSlug setTimeoutSeconds];
    rewrite M1, M2, M4; reflexivity.
Qed.

Lemma Run_invalid (req : subagentInput) :
  unm m = Ok req -> ExecutorSpec.failsValidation f s req ->
  exists msg, Run unm q f s m = Ret (llm.ErrorfToolOut msg).
Proof.
  intros E F.
  destruct (string_dec (Slug req) "") as [H1|H1];
    [eexists; now apply (Run_slug_required req)|].
  destruct (string_dec (sanitizeSlug f (Slug req)) "") as [H2|H2];
    [eexists; now apply (Run_slug_alphanumeric req)|].
  destruct (string_dec (Prompt req) "") as [H3|H3];
    [eexists; now apply (Run_prompt_required req)|].
  destruct F as [F|[F|[F|F]]]; try contradiction.
  eexists. now apply (Run_unknown_model req).
Qed.

Lemma Run_valid (req : subagentInput) :
  unm m = Ok req -> ExecutorSpec.passesValidation f s req ->
  Run unm q f s m =
  ExecutorSpec.bindAndDispatch s (sanitizeSlug f (Slug req)) (Prompt req)
    (ExecutorSpec.resolveWait (Wait req))
    (ExecutorSpec.resolveTimeout (TimeoutSeconds req))
    (ExecutorSpec.selectModel s req).
Proof.
  intros E (H1 & H2 & H3 & M). unfold Run. rewrite E.
  apply String.eqb_neq in H1, H2, H3. rewrite H1.
  cbn [Slug Prompt TimeoutSeconds Wait Model setSlug]. rewrite H2, H3.
  unfold ExecutorSpec.resolveTimeout, ExecutorSpec.selectModel,
    ExecutorSpec.bindAndDispatch, ExecutorSpec.composeReply, slugNoteFor.
  assert (T : forall z, 0 < z <= 300 -> time.int64 (z * time.Second) = z * time.Second).
  { intros z Hz. apply int64_small. unfold time.Second. lia. }
  rewrite Z.gtb_ltb.
  destruct (Z.ltb_spec 0 (TimeoutSeconds req)) as [P0|P0].
  - destruct (Z.leb_spec (TimeoutSeconds req) 0); [lia|].
    rewrite Z.gtb_ltb.
    destruct (Z.ltb_spec 300 (TimeoutSeconds req)) as [P1|P1].
    + destruct (Z.leb_spec (TimeoutSeconds req) 300); [lia|].
      cbn [Slug Prompt TimeoutSeconds Wait Model setSlug setTimeoutSeconds].
      rewrite (T 300) by lia.
      destruct M as [M|[M|M]].
      * rewrite M. reflexivity.
      * rewrite M. cbn [List.length Nat.ltb Nat.leb].
        destruct (String.eqb (Model req) ""); reflexivity.
      * apply registry_scan in M. rewrite M. cbn [negb].
        destruct (String.eqb (Model req) ""); cbn [negb]; [reflexivity|].
        destruct (0 <? _)%nat; reflexivity.
    + destruct (Z.leb_spec (TimeoutSeconds req) 300); [|lia].
      cbn [Slug Prompt TimeoutSeconds Wait Model setSlug setTimeoutSeconds].
      rewrite (T (TimeoutSeconds req)) by lia.
      destruct M as [M|[M|M]].
      * rewrite M. reflexivity.
      * rewrite M. cbn [List.length Nat.ltb Nat.leb].
        destruct (String.eqb (Model req) ""); reflexivity.
      * apply registry_scan in M. rewrite M. cbn [negb].
        destruct (String.eqb (Model req) ""); cbn [negb]; [reflexivity|].
        destruct (0 <? _)%nat; reflexivity.
  - destruct (Z.leb_spec (TimeoutSeconds req) 0); [|lia].
    cbn [Slug Prompt TimeoutSeconds Wait Model setSlug setTimeoutSeconds].
    destruct M as [M|[M|M]].
    + rewrite M. reflexivity.
    + rewrite M. cbn [List.length Nat.ltb Nat.leb].
      destruct (String.eqb (Model req) ""); reflexivity.
    + apply registry_scan in M. rewrite M. cbn [negb].
      destruct (String.eqb (Model req) ""); cbn [negb]; [reflexivity|].
      destruct (0 <? _)%nat; reflexivity.
Qed.

End RunFacts.

Lemma validation_cases (f : rune -> rune) (s : SubagentTool) (req : subagentInput) :
  ExecutorSpec.failsValidation f s req \/ ExecutorSpec.passesValidation f s req.
Proof.
  unfold ExecutorSpec.failsValidation, ExecutorSpec.passesValidation,
    ExecutorSpec.modelRejected, ExecutorSpec.modelAccepted, ExecutorSpec.registryMember.
  destruct (string_dec (Slug req) ""); [tauto|].
  destruct (string_dec (sanitizeSlug f (Slug req)) ""); [tauto|].
  destruct (string_dec (Prompt req) ""); [tauto|].
  destruct (string_dec (Model req) ""); [tauto|].
  destruct (AvailableModels s) as [|a l] eqn:A; [tauto|].
  destruct (in_dec string_dec (Model req) (map ID (a :: l))); [tauto|].
  left. do 3 right. repeat split; [assumption | discriminate | assumption].
Qed.

Lemma validation_exclusive (f : rune -> rune) (s : SubagentTool) (req : subagentInput) :
  ExecutorSpec.failsValidation f s req -> ExecutorSpec.passesValidation f s req -> False.
Proof.
  unfold ExecutorSpec.failsValidation, ExecutorSpec.passesValidation,
    ExecutorSpec.modelRejected, ExecutorSpec.modelAccepted.
  tauto.
Qed.

(** Every call of [Run] either returns an error at once or goes on to bind
    and dispatch with the resolved slug, wait, timeout and model. *)
Lemma Run_outcome (unm : string -> result subagentInput) (q : string -> string)
    (f : rune -> rune) (s : SubagentTool) (m : string) :
  (exists msg, Run unm q f s m = Ret (llm.ErrorfToolOut msg) /\
     forall req, unm m = Ok req -> ExecutorSpec.failsValidation f s req) \/
  (exists req, unm m = Ok req /\ ExecutorSpec.passesValidation f s req /\
     Run unm q f s m =
     ExecutorSpec.bindAndDispatch s (sanitizeSlug f (Slug req)) (Prompt req)
       (ExecutorSpec.resolveWait (Wait req))
       (ExecutorSpec.resolveTimeout (TimeoutSeconds req))
       (ExecutorSpec.selectModel s req)).
Proof.
  destruct (unm m) as [req|e] eqn:E.
  - destruct (validation_cases f s req) as [F|P].
    + left. destruct (Run_invalid unm q f s m req E F) as [msg Hmsg].
      exists msg. split; [exact Hmsg|]. intros req' [= <-]. exact F.
    + right. exists req. split; [reflexivity|]. split; [exact P|]. now apply Run_valid.
  - left. exists ("failed to parse subagent input: " ++ e).
    split; [apply Run_decode_error; exact E|]. intros req; discriminate.
Qed.

Section Exec.
Context {D R : Type} {HD : SubagentDB D} {HR : SubagentRunner R}.

Lemma exec_bindAndDispatch (s : SubagentTool) (slug prompt : string) (wait : bool)
    (timeout : time.Duration) (modelID : string) (db : D) (runner : R) :
  exec (ExecutorSpec.bindAndDispatch s slug prompt wait timeout modelID) db runner =
  let dbc := {| db_slug := slug; db_parentID := ParentConversationID s;
                db_cwd := WorkingDir s |} in
  match DB_GetOrCreateSubagentConversation db dbc with
  | (Err e, db1) =>
    (llm.ErrorfToolOut ("failed to get/create subagent conversation: " ++ e),
     db1, runner, [DBEvent dbc (Err e)])
  | (Ok (conversationID, actualSlug), db1) =>
    let rc := {| run_conversationID := conversationID; run_prompt := prompt;
                 run_wait := wait; run_timeout := timeout; run_modelID := modelID |} in
    match Runner_RunSubagent runner rc with
    | (Err e, runner1) =>
      (llm.ErrorfToolOut ("subagent error: " ++ e), db1, runner1,
       [DBEvent dbc (Ok (conversationID, actualSlug)); RunnerEvent rc (Err e)])
    | (Ok response, runner1) =>
      (ExecutorSpec.composeReply slug conversationID actualSlug response, db1, runner1,
       [DBEvent dbc (Ok (conversationID, actualSlug)); RunnerEvent rc (Ok response)])
    end
  end.
Proof.
  unfold ExecutorSpec.bindAndDispatch. cbn [exec].
  destruct (DB_GetOrCreateSubagentConversation db _) as [[[cid actual]|e] db1];
    [|reflexivity].
  cbn [exec]. destruct (Runner_RunSubagent runner _) as [[resp|e] runner1]; reflexivity.
Qed.

Lemma dispatch_runnerCalls (s : SubagentTool) (slug prompt : string) (wait : bool)
    (timeout : time.Duration) (modelID : string) (db : D) (runner : R) (c : RunnerCall) :
  In c (runnerCalls
          (snd (exec (ExecutorSpec.bindAndDispatch s slug prompt wait timeout modelID)
                     db runner))) ->
  run_prompt c = prompt /\ run_wait c = wait /\ run_timeout c = timeout /\
  run_modelID c = modelID.
Proof.
  rewrite exec_bindAndDispatch. cbv zeta.
  destruct (DB_GetOrCreateSubagentConversation db _) as [[[cid actual]|e] db1];
    [|cbn; tauto].
  destruct (Runner_RunSubagent runner _) as [[resp|e] runner1];
    cbn; intros [<-|[]]; repeat split.
Qed.

Lemma Run_runnerCalls (unm : string -> result subagentInput) (q : string -> string)
    (f : rune -> rune) (s : SubagentTool) (m : string) (req : subagentInput)
    (db : D) (runner : R) (c : RunnerCall) :
  unm m = Ok req ->
  In c (runnerCalls (snd (exec (Run unm q f s m) db runner))) ->
  ExecutorSpec.passesValidation f s req /\
  run_prompt c = Prompt req /\
  run_wait c = ExecutorSpec.resolveWait (Wait req) /\
  run_timeout c = ExecutorSpec.resolveTimeout (TimeoutSeconds req) /\
  run_modelID c = ExecutorSpec.selectModel s req.
Proof.
  intros E Hc.
  destruct (Run_outcome unm q f s m) as [(msg & Hrun & _)|(req' & E' & P & Hrun)].
  - rewrite Hrun in Hc. cbn in Hc. contradiction.
  - rewrite E in E'. injection E' as <-. rewrite Hrun in Hc.
    split; [exact P|]. now apply dispatch_runnerCalls in Hc.
Qed.

End Exec.

(** ** Validation (C1, C2, C10) *)

(** C10: when the raw input fails JSON decoding or the decoded request
    fails a validation step (empty slug, slug sanitizing to empty, empty
    prompt, rejected model), [Run] returns a tool error and calls neither
    [GetOrCreateSubagentConversation] nor [RunSubagent]: against any
    directory and runner the list of calls is empty and both are left as
    they were. *)
Theorem C10_no_calls_on_rejected_input :
  forall (unm : string -> result subagentInput) (q : string -> string)
         (f : rune -> rune) (s : SubagentTool) (m : string),
    (exists e, unm m = Err e) \/
    (exists req, unm m = Ok req /\ ExecutorSpec.failsValidation f s req) ->
    exists msg,
      Run unm q f s m = Ret (llm.ErrorfToolOut msg) /\
      forall (D R : Type) (HD : SubagentDB D) (HR : SubagentRunner R)
             (db : D) (runner : R),
        exec (Run unm q f s m) db runner = (llm.ErrorfToolOut msg, db, runner, []).
Proof.
  intros unm q f s m H.
  assert (G : exists msg, Run unm q f s m = Ret (llm.ErrorfToolOut msg)).
  { destruct H as [[e E]|(req & E & F)].
    - eexists. apply Run_decode_error. exact E.
    - now apply (Run_invalid unm q f s m req). }
  destruct G as [msg G]. exists msg. split; [exact G|].
  intros D R HD HR db runner. rewrite G. reflexivity.
Qed.

Lemma C10_witness :
  exists msg,
    Run (decodeAs (Examples.request "@#$%" "test" 0 "")) quotePlain asciiOnly
        Examples.noModelsTool "request" = Ret (llm.ErrorfToolOut msg) /\
    forall (D R : Type) (HD : SubagentDB D) (HR : SubagentRunner R)
           (db : D) (runner : R),
      exec (Run (decodeAs (Examples.request "@#$%" "test" 0 "")) quotePlain asciiOnly
                Examples.noModelsTool "request") db runner
      = (llm.ErrorfToolOut msg, db, runner, []).
Proof.
  apply C10_no_calls_on_rejected_input.
  right. exists (Examples.request "@#$%" "test" 0 ""). split; [reflexivity|].
  right. left. reflexivity.
Defined.

(** C1 (amended): when the registry is not empty and the request supplies a
    non-empty model that the registry does not list, [Run] returns a tool
    error and makes no call; once slug and prompt have passed, the error is
    the "unknown model" message with the known ids.  (With an empty
    registry a supplied model is accepted as it is.) *)
Theorem C1_unlisted_model_rejected :
  forall (unm : string -> result subagentInput) (q : string -> string)
         (f : rune -> rune) (s : SubagentTool) (m : string) (req : subagentInput),
    unm m = Ok req ->
    Model req <> "" ->
    AvailableModels s <> [] ->
    ~ In (Model req) (map ID (AvailableModels s)) ->
    exists msg,
      Run unm q f s m = Ret (llm.ErrorfToolOut msg) /\
      (forall (D R : Type) (HD : SubagentDB D) (HR : SubagentRunner R)
              (db : D) (runner : R),
         exec (Run unm q f s m) db runner = (llm.ErrorfToolOut msg, db, runner, [])) /\
      (sanitizeSlug f (Slug req) <> "" -> Prompt req <> "" ->
       msg = "unknown model " ++ q (Model req) ++ "; available: "
             ++ strings.Join (map ID (AvailableModels s)) ", ").
Proof.
  intros unm q f s m req E M1 M2 M3.
  assert (J : ExecutorSpec.modelRejected s req) by (repeat split; assumption).
  assert (F : ExecutorSpec.failsValidation f s req) by (do 3 right; exact J).
  destruct (Run_invalid unm q f s m req E F) as [msg G].
  exists msg. split; [exact G|]. split.
  - intros D R HD HR db runner. rewrite G. reflexivity.
  - intros H2 H3. rewrite (Run_unknown_model unm q f s m req E H2 H3 J) in G.
    now injection G as <-.
Qed.

Lemma C1_witness :
  exists msg,
    Run (decodeAs (Examples.request "test" "do something" 0 "nonexistent-model"))
        quotePlain asciiOnly Examples.registryTool "request"
    = Ret (llm.ErrorfToolOut msg) /\
    (forall (D R : Type) (HD : SubagentDB D) (HR : SubagentRunner R)
            (db : D) (runner : R),
       exec (Run (decodeAs (Examples.request "test" "do something" 0 "nonexistent-model"))
                 quotePlain asciiOnly Examples.registryTool "request") db runner
       = (llm.ErrorfToolOut msg, db, runner, [])) /\
    (sanitizeSlug asciiOnly "test" <> "" -> "do something" <> "" ->
     msg = "unknown model " ++ quotePlain "nonexistent-model" ++ "; available: "
           ++ strings.Join ["claude-sonnet-4-20250514"; "claude-haiku-4.5"] ", ").
Proof.
  apply (C1_unlisted_model_rejected
           (decodeAs (Examples.request "test" "do something" 0 "nonexistent-model"))
           quotePlain asciiOnly Examples.registryTool "request"
           (Examples.request "test" "do something" 0 "nonexistent-model")).
  - reflexivity.
  - discriminate.
  - discriminate.
  - cbn. intros [H|[H|[]]]; discriminate.
Defined.

(** C1 as stated fails: with an empty registry a non-empty model that is
    not a member of the registry is accepted, and the runner is called with
    it. *)
Lemma C1_counterexample :
  Model (Examples.request "test" "do something" 0 "nonexistent-model") <> "" /\
  ~ In "nonexistent-model" (map ID (AvailableModels Examples.noModelsTool)) /\
  exec (Run (decodeAs (Examples.request "test" "do something" 0 "nonexistent-model"))
            quotePlain asciiOnly Examples.noModelsTool "request")
       newMockSubagentDB Examples.okRunner
  = ({| llm.LLMContent :=
          llm.TextContent ("Subagent 'test' response:" ++ nl ++ "Task completed successfully");
        llm.Display := Some {| SubagentDisplayData.Slug := "test";
                               SubagentDisplayData.ConversationID := "subagent-test" |};
        llm.Error := None |},
     {| conversations := [("parent-123:test", "subagent-test")] |},
     {| response := "Task completed successfully"; err := None;
        lastModelID := "nonexistent-model" |},
     [ DBEvent {| db_slug := "test"; db_parentID := "parent-123"; db_cwd := "/tmp" |}
               (Ok ("subagent-test", "test"));
       RunnerEvent {| run_conversationID := "subagent-test"; run_prompt := "do something";
                      run_wait := true; run_timeout := 60 * time.Second;
                      run_modelID := "nonexistent-model" |}
                   (Ok "Task completed successfully") ]).
Proof.
  split; [discriminate|]. split; [intros []|]. reflexivity.
Qed.

(** C2 (amended): an empty slug gives "slug is required"; a non-empty slug
    that sanitizes to the empty string gives "slug must contain alphanumeric
    characters"; an empty prompt gives "prompt is required" when the slug
    sanitizes to a non-empty string.  The slug is checked and normalized
    before the prompt is looked at. *)
Theorem C2_validation_errors :
  forall (unm : string -> result subagentInput) (q : string -> string)
         (f : rune -> rune) (s : SubagentTool) (m : string) (req : subagentInput),
    unm m = Ok req ->
    (Slug req = "" ->
     Run unm q f s m = Ret (llm.ErrorfToolOut "slug is required")) /\
    (Slug req <> "" -> sanitizeSlug f (Slug req) = "" ->
     Run unm q f s m = Ret (llm.ErrorfToolOut "slug must contain alphanumeric characters")) /\
    (sanitizeSlug f (Slug req) <> "" -> Prompt req = "" ->
     Run unm q f s m = Ret (llm.ErrorfToolOut "prompt is required")).
Proof.
  intros unm q f s m req E. repeat split.
  - now apply Run_slug_required.
  - now apply Run_slug_alphanumeric.
  - now apply Run_prompt_required.
Qed.

Lemma C2_witness :
  ("test" = "" ->
   Run (decodeAs (Examples.request "test" "" 0 "")) quotePlain asciiOnly
       Examples.noModelsTool "request" = Ret (llm.ErrorfToolOut "slug is required")) /\
  ("test" <> "" -> sanitizeSlug asciiOnly "test" = "" ->
   Run (decodeAs (Examples.request "test" "" 0 "")) quotePlain asciiOnly
       Examples.noModelsTool "request"
   = Ret (llm.ErrorfToolOut "slug must contain alphanumeric characters")) /\
  (sanitizeSlug asciiOnly "test" <> "" -> "" = "" ->
   Run (decodeAs (Examples.request "test" "" 0 "")) quotePlain asciiOnly
       Examples.noModelsTool "request" = Ret (llm.ErrorfToolOut "prompt is required")).
Proof.
  apply (C2_validation_errors (decodeAs (Examples.request "test" "" 0 "")) quotePlain
           asciiOnly Examples.noModelsTool "request" (Examples.request "test" "" 0 "")).
  reflexivity.
Defined.

(** C2 as stated fails: with the non-empty slug ["@#$%"] and an empty
    prompt, [Run] does not answer "prompt is required": the slug is
    normalized first and the answer is the alphanumeric error. *)
Lemma C2_counterexample :
  Slug (Examples.request "@#$%" "" 0 "") <> "" /\
  Prompt (Examples.request "@#$%" "" 0 "") = "" /\
  Run (decodeAs (Examples.request "@#$%" "" 0 "")) quotePlain asciiOnly
      Examples.noModelsTool "request"
  = Ret (llm.ErrorfToolOut "slug must contain alphanumeric characters") /\
  Run (decodeAs (Examples.request "@#$%" "" 0 "")) quotePlain asciiOnly
      Examples.noModelsTool "request"
  <> Ret (llm.ErrorfToolOut "prompt is required").
Proof.
  split; [discriminate|]. split; [reflexivity|].
  assert (E : Run (decodeAs (Examples.request "@#$%" "" 0 "")) quotePlain asciiOnly
                  Examples.noModelsTool "request"
              = Ret (llm.ErrorfToolOut "slug must contain alphanumeric characters"))
    by reflexivity.
  split; [exact E|]. rewrite E. discriminate.
Qed.

(** ** Dispatch and reply (C3, C7, C8) *)

(** C3: when a call succeeds, the directory answered with
    [(conversationID, actualSlug)] for the sanitized slug, the runner
    answered with [response], the text for the model is
    ["Subagent '<actualSlug>' response:"], then the slug-change note exactly
    when [actualSlug] differs from the sanitized slug, then a newline, then
    [response]; and the display payload is
    [{slug: actualSlug, conversation_id: conversationID}]. *)
Theorem C3_reply_of_successful_call :
  forall (unm : string -> result subagentInput) (q : string -> string)
         (f : rune -> rune) (s : SubagentTool) (m : string)
         (D R : Type) (HD : SubagentDB D) (HR : SubagentRunner R)
         (db db' : D) (runner runner' : R) (out : ToolOut) (events : list Event),
    exec (Run unm q f s m) db runner = (out, db', runner', events) ->
    llm.Error out = None ->
    exists (req : subagentInput) (conversationID actualSlug response : string)
           (rc : RunnerCall),
      unm m = Ok req /\
      events =
        [ DBEvent {| db_slug := sanitizeSlug f (Slug req);
                     db_parentID := ParentConversationID s;
                     db_cwd := WorkingDir s |}
                  (Ok (conversationID, actualSlug));
          RunnerEvent rc (Ok response) ] /\
      run_conversationID rc = conversationID /\
      llm.LLMContent out =
        llm.TextContent
          ("Subagent '" ++ actualSlug ++ "' response:" ++
           (if String.eqb actualSlug (sanitizeSlug f (Slug req)) then ""
            else " (Note: slug was changed to '" ++ actualSlug ++
                 "' for uniqueness. Use '" ++ actualSlug ++
                 "' for future messages to this subagent.)") ++
           nl ++ response) /\
      llm.Display out =
        Some {| SubagentDisplayData.Slug := actualSlug;
                SubagentDisplayData.ConversationID := conversationID |}.
Proof.
  intros unm q f s m D R HD HR db db' runner runner' out events Hexec Hok.
  destruct (Run_outcome unm q f s m) as [(msg & Hrun & _)|(req & E & _ & Hrun)];
    rewrite Hrun in Hexec.
  - cbn in Hexec. injection Hexec as <- _ _ _. discriminate.
  - rewrite exec_bindAndDispatch in Hexec. cbv zeta in Hexec.
    destruct (DB_GetOrCreateSubagentConversation db _) as [[[cid actual]|e] db1];
      [|injection Hexec as <- _ _ _; discriminate].
    destruct (Runner_RunSubagent runner _) as [[resp|e] runner1] eqn:Hr;
      [|injection Hexec as <- _ _ _; discriminate].
    injection Hexec as <- _ _ <-.
    exists req, cid, actual, resp. eexists. split; [exact E|].
    split; [reflexivity|]. split; [reflexivity|]. split; [|reflexivity].
    cbn [llm.LLMContent ExecutorSpec.composeReply].
    destruct (String.eqb actual (sanitizeSlug f (Slug req))); reflexivity.
Qed.

Lemma C3_witness :
  exists (req : subagentInput) (conversationID actualSlug response : string)
         (rc : RunnerCall),
    decodeAs (Examples.request "Test Task" "Do something" 0 "") "request" = Ok req /\
    [ DBEvent {| db_slug := "test-task"; db_parentID := "parent-123"; db_cwd := "/tmp" |}
              (Ok ("conv-test-task-2", "test-task-2"));
      RunnerEvent {| run_conversationID := "conv-test-task-2";
                     run_prompt := "Do something"; run_wait := true;
                     run_timeout := 60 * time.Second; run_modelID := "some-model" |}
                  (Ok "Task completed successfully") ] =
      [ DBEvent {| db_slug := sanitizeSlug asciiOnly (Slug req);
                   db_parentID := ParentConversationID Examples.noModelsTool;
                   db_cwd := WorkingDir Examples.noModelsTool |}
                (Ok (conversationID, actualSlug));
        RunnerEvent rc (Ok response) ] /\
    run_conversationID rc = conversationID /\
    llm.TextContent
      ("Subagent 'test-task-2' response: (Note: slug was changed to 'test-task-2' " ++
       "for uniqueness. Use 'test-task-2' for future messages to this subagent.)" ++
       nl ++ "Task completed successfully") =
      llm.TextContent
        ("Subagent '" ++ actualSlug ++ "' response:" ++
         (if String.eqb actualSlug (sanitizeSlug asciiOnly (Slug req)) then ""
          else " (Note: slug was changed to '" ++ actualSlug ++
               "' for uniqueness. Use '" ++ actualSlug ++
               "' for future messages to this subagent.)") ++
         nl ++ response) /\
    Some {| SubagentDisplayData.Slug := "test-task-2";
            SubagentDisplayData.ConversationID := "conv-test-task-2" |} =
      Some {| SubagentDisplayData.Slug := actualSlug;
              SubagentDisplayData.ConversationID := conversationID |}.
Proof.
  apply (C3_reply_of_successful_call
           (decodeAs (Examples.request "Test Task" "Do something" 0 "")) quotePlain
           asciiOnly Examples.noModelsTool "request"
           suffixingDB mockSubagentRunner _ _
           {| allocated := 0 |} {| allocated := 1 |}
           Examples.okRunner
           {| response := "Task completed successfully"; err := None;
              lastModelID := "some-model" |}
           {| llm.LLMContent :=
                llm.TextContent
                  ("Subagent 'test-task-2' response: (Note: slug was changed to 'test-task-2' " ++
                   "for uniqueness. Use 'test-task-2' for future messages to this subagent.)" ++
                   nl ++ "Task completed successfully");
              llm.Display :=
                Some {| SubagentDisplayData.Slug := "test-task-2";
                        SubagentDisplayData.ConversationID := "conv-test-task-2" |};
              llm.Error := None |}).
  - reflexivity.
  - reflexivity.
Defined.

(** C7: the timeout of every call that reaches the runner is
    [timeout_seconds] seconds when [1 <= timeout_seconds <= 300], 300
    seconds when [timeout_seconds > 300] and the default 60 seconds when
    [timeout_seconds] is absent (zero) or [<= 0].  A request that passes
    validation is dispatched whatever its [timeout_seconds]: once the
    directory has bound the child, the runner is called exactly once. *)
Theorem C7_timeout_passed_to_runner :
  forall (unm : string -> result subagentInput) (q : string -> string)
         (f : rune -> rune) (s : SubagentTool) (m : string) (req : subagentInput)
         (D R : Type) (HD : SubagentDB D) (HR : SubagentRunner R)
         (db : D) (runner : R),
    unm m = Ok req ->
    (forall c : RunnerCall,
       In c (runnerCalls (snd (exec (Run unm q f s m) db runner))) ->
       (1 <= TimeoutSeconds req <= 300 ->
        run_timeout c = TimeoutSeconds req * time.Second) /\
       (300 < TimeoutSeconds req -> run_timeout c = 300 * time.Second) /\
       (TimeoutSeconds req <= 0 -> run_timeout c = 60 * time.Second)) /\
    (ExecutorSpec.passesValidation f s req ->
     forall bound : string * string,
       fst (DB_GetOrCreateSubagentConversation db
              {| db_slug := sanitizeSlug f (Slug req);
                 db_parentID := ParentConversationID s;
                 db_cwd := WorkingDir s |}) = Ok bound ->
       exists c : RunnerCall,
         runnerCalls (snd (exec (Run unm q f s m) db runner)) = [c]).
Proof.
  intros unm q f s m req D R HD HR db runner E. split.
  - intros c Hc.
    destruct (Run_runnerCalls unm q f s m req db runner c E Hc) as (_ & _ & _ & T & _).
    rewrite T. unfold ExecutorSpec.resolveTimeout.
    destruct (Z.leb_spec (TimeoutSeconds req) 0);
      destruct (Z.leb_spec (TimeoutSeconds req) 300);
      repeat split; intros; try lia; reflexivity.
  - intros P bound Hb. rewrite (Run_valid unm q f s m req E P), exec_bindAndDispatch.
    cbv zeta.
    destruct (DB_GetOrCreateSubagentConversation db _) as [[[cid actual]|e] db1];
      [|discriminate].
    destruct (Runner_RunSubagent runner _) as [[resp|e] runner1];
      eexists; reflexivity.
Qed.

Lemma C7_witness :
  ((1 <= 9999 <= 300 -> 300 * time.Second = 9999 * time.Second) /\
   (300 < 9999 -> 300 * time.Second = 300 * time.Second) /\
   (9999 <= 0 -> 300 * time.Second = 60 * time.Second)) /\
  (exists c : RunnerCall,
     runnerCalls
       (snd (exec (Run (decodeAs (Examples.request "test" "do something" 9999 ""))
                       quotePlain asciiOnly Examples.noModelsTool "request")
                  newMockSubagentDB Examples.okRunner)) = [c]).
Proof.
  destruct (C7_timeout_passed_to_runner
              (decodeAs (Examples.request "test" "do something" 9999 "")) quotePlain
              asciiOnly Examples.noModelsTool "request"
              (Examples.request "test" "do something" 9999 "")
              mockSubagentDB mockSubagentRunner _ _ newMockSubagentDB Examples.okRunner
              eq_refl) as [H1 H2].
  split.
  - apply (H1 {| run_conversationID := "subagent-test"; run_prompt := "do something";
                 run_wait := true; run_timeout := 300 * time.Second;
                 run_modelID := "some-model" |}).
    left. reflexivity.
  - assert (P : ExecutorSpec.passesValidation asciiOnly Examples.noModelsTool
                  (Examples.request "test" "do something" 9999 "")).
    { repeat split; try discriminate. now left. }
    apply (H2 P ("subagent-test", "test")). reflexivity.
Defined.

(** C8: the model id of every call that reaches the runner is the request's
    model when that field is non-empty (it then passed the registry check:
    the registry is empty or lists it), and the parent's [ModelID]
    otherwise. *)
Theorem C8_model_passed_to_runner :
  forall (unm : string -> result subagentInput) (q : string -> string)
         (f : rune -> rune) (s : SubagentTool) (m : string) (req : subagentInput)
         (D R : Type) (HD : SubagentDB D) (HR : SubagentRunner R)
         (db : D) (runner : R) (c : RunnerCall),
    unm m = Ok req ->
    In c (runnerCalls (snd (exec (Run unm q f s m) db runner))) ->
    (Model req <> "" ->
     run_modelID c = Model req /\
     (AvailableModels s = [] \/ In (Model req) (map ID (AvailableModels s)))) /\
    (Model req = "" -> run_modelID c = ModelID s).
Proof.
  intros unm q f s m req D R HD HR db runner c E Hc.
  destruct (Run_runnerCalls unm q f s m req db runner c E Hc)
    as ((_ & _ & _ & A) & _ & _ & _ & M).
  rewrite M. unfold ExecutorSpec.selectModel. split.
  - intros N. apply String.eqb_neq in N. rewrite N. split; [reflexivity|].
    apply String.eqb_neq in N. destruct A as [A|[A|A]]; [contradiction| now left | now right].
  - intros ->. reflexivity.
Qed.

Lemma C8_witness :
  ("claude-haiku-4.5" <> "" ->
   run_modelID
     {| run_conversationID := "subagent-test"; run_prompt := "do something";
        run_wait := true; run_timeout := 60 * time.Second;
        run_modelID := "claude-haiku-4.5" |} = "claude-haiku-4.5" /\
   (AvailableModels Examples.registryTool = [] \/
    In "claude-haiku-4.5" (map ID (AvailableModels Examples.registryTool)))) /\
  ("claude-haiku-4.5" = "" ->
   run_modelID
     {| run_conversationID := "subagent-test"; run_prompt := "do something";
        run_wait := true; run_timeout := 60 * time.Second;
        run_modelID := "claude-haiku-4.5" |} = ModelID Examples.registryTool).
Proof.
  apply (C8_model_passed_to_runner
           (decodeAs (Examples.request "test" "do something" 0 "claude-haiku-4.5"))
           quotePlain asciiOnly Examples.registryTool "request"
           (Examples.request "test" "do something" 0 "claude-haiku-4.5")
           mockSubagentDB mockSubagentRunner _ _ newMockSubagentDB Examples.okRunner).
  - reflexivity.
  - left. reflexivity.
Defined.

(** ** The tool descriptor (C9) *)

Lemma HasPrefix_app_l (x p b : string) :
  strings.HasPrefix x p = true -> strings.HasPrefix (x ++ b) p = true.
Proof.
  revert x. induction p as [|c p IH]; intros x; [reflexivity|].
  destruct x as [|d x]; cbn; [discriminate|].
  intros H. apply andb_true_iff in H. destruct H as [-> H]. now apply IH.
Qed.

Lemma Contains_app_l (x p b : string) :
  strings.Contains x p = true -> strings.Contains (x ++ b) p = true.
Proof.
  induction x as [|c x IH].
  - destruct p; [destruct b; reflexivity | discriminate].
  - cbn [strings.Contains String.append]. intros H.
    apply orb_true_iff in H. destruct H as [H|H].
    + apply (HasPrefix_app_l (String c x) p b) in H. cbn [String.append] in H.
      now rewrite H.
    + rewrite (IH H). apply orb_true_r.
Qed.

Lemma Contains_app_r (a x p : string) :
  strings.Contains x p = true -> strings.Contains (a ++ x) p = true.
Proof.
  intros H. induction a as [|c a IH]; [exact H|].
  cbn [strings.Contains String.append]. rewrite IH. apply orb_true_r.
Qed.

Lemma Contains_of_HasPrefix (x p : string) :
  strings.HasPrefix x p = true -> strings.Contains x p = true.
Proof.
  intros H. destruct x; cbn [strings.Contains]; rewrite H; reflexivity.
Qed.

Lemma HasPrefix_app_self (p t : string) : strings.HasPrefix (p ++ t) p = true.
Proof.
  induction p as [|c p IH]; [reflexivity|].
  cbn. now rewrite Ascii.eqb_refl, IH.
Qed.

Lemma Contains_refl (p : string) : strings.Contains p p = true.
Proof.
  apply Contains_of_HasPrefix. rewrite <- (append_empty_r p) at 1.
  apply HasPrefix_app_self.
Qed.

Lemma Contains_concat (l : list string) (x p : string) :
  In x l -> strings.Contains x p = true ->
  strings.Contains (String.concat "" l) p = true.
Proof.
  intros Hin Hx. induction l as [|y l IH]; [contradiction|].
  destruct l as [|z l].
  - destruct Hin as [->|[]]. exact Hx.
  - change (String.concat "" (y :: z :: l)) with (y ++ String.concat "" (z :: l)).
    destruct Hin as [->|Hin].
    + now apply Contains_app_l.
    + apply Contains_app_r. now apply IH.
Qed.

Lemma Contains_Join (l : list string) (sep x p : string) :
  In x l -> strings.Contains x p = true ->
  strings.Contains (strings.Join l sep) p = true.
Proof.
  intros Hin Hx. induction l as [|y l IH]; [contradiction|].
  destruct l as [|z l].
  - destruct Hin as [->|[]]. exact Hx.
  - change (strings.Join (y :: z :: l) sep)
      with (y ++ sep ++ strings.Join (z :: l) sep).
    destruct Hin as [->|Hin].
    + now apply Contains_app_l.
    + apply Contains_app_r, Contains_app_r. now apply IH.
Qed.

Lemma modelLine_entry (m : AvailableModel) :
  modelLine m = nl ++ DescriptorSpec.entry m.
Proof.
  unfold modelLine, DescriptorSpec.entry, DescriptorSpec.hasDistinctDisplayName.
  destruct (negb _ && negb _); reflexivity.
Qed.

Lemma description_lines (models : list AvailableModel) (acc : string) :
  fold_left (fun base m => base ++ modelLine m) models acc =
  acc ++ String.concat "" (map modelLine models).
Proof.
  revert acc. induction models as [|m models IH]; intros acc.
  - cbn. now rewrite append_empty_r.
  - cbn [fold_left map]. rewrite IH, append_assoc. f_equal.
    destruct models; cbn; [now rewrite append_empty_r | reflexivity].
Qed.

Lemma enum_items (q : string -> string) (models : list AvailableModel)
    (acc : list string) :
  fold_left (fun items m => (items ++ [q (ID m)])%list) models acc =
  (acc ++ map q (map ID models))%list.
Proof.
  revert acc. induction models as [|m models IH]; intros acc.
  - cbn. now rewrite app_nil_r.
  - cbn [fold_left map]. rewrite IH, <- app_assoc. reflexivity.
Qed.

Lemma subagentDescription_models (s : SubagentTool) :
  AvailableModels s <> [] ->
  subagentDescription s =
  descriptionBase ++ modelsHeader ++ String.concat "" (map modelLine (AvailableModels s)).
Proof.
  intros N. unfold subagentDescription.
  apply registry_nonempty in N. rewrite N.
  now rewrite description_lines, append_assoc.
Qed.

Lemma subagentInputSchema_models (q : string -> string) (s : SubagentTool) :
  AvailableModels s <> [] ->
  subagentInputSchema q s =
  schemaHead ++
  (modelPropHead ++ strings.Join (map q (map ID (AvailableModels s))) ", " ++ modelPropTail)
  ++ schemaTail.
Proof.
  intros N. unfold subagentInputSchema.
  apply registry_nonempty in N. rewrite N.
  now rewrite enum_items.
Qed.

Lemma descriptor_no_models (q : string -> string) (s : SubagentTool) :
  AvailableModels s = [] ->
  subagentInputSchema q s = schemaHead ++ schemaTail /\
  subagentDescription s = descriptionBase.
Proof.
  intros E. unfold subagentInputSchema, subagentDescription. rewrite E.
  split; reflexivity.
Qed.

Lemma fixed_texts_have_no_model :
  schemaHasModelField (schemaHead ++ schemaTail) = false /\
  strings.Contains descriptionBase "Available models" = false.
Proof. split; vm_compute; reflexivity. Qed.

Lemma description_has_entry (s : SubagentTool) (m : AvailableModel) :
  In m (AvailableModels s) ->
  strings.Contains (subagentDescription s) (nl ++ DescriptorSpec.entry m) = true.
Proof.
  intros Hin.
  assert (N : AvailableModels s <> []) by (intros E; rewrite E in Hin; contradiction).
  rewrite (subagentDescription_models s N).
  apply Contains_app_r, Contains_app_r.
  apply (Contains_concat _ (modelLine m)); [now apply in_map|].
  rewrite modelLine_entry. apply Contains_refl.
Qed.

Lemma description_bulleted (s : SubagentTool) :
  AvailableModels s <> [] ->
  subagentDescription s =
  descriptionBase ++ nl ++ nl ++
  "Available models (use the " ++ quoted "model" ++
  " parameter to override the default):" ++
  DescriptorSpec.bulletedList (AvailableModels s).
Proof.
  intros N. rewrite (subagentDescription_models s N).
  unfold modelsHeader, DescriptorSpec.bulletedList.
  rewrite (map_ext _ _ modelLine_entry), !append_assoc. reflexivity.
Qed.

(** C9: the schema has a [model] property iff the description lists the
    models (it has the "Available models" section with the entry of every
    registry model on a line of its own) iff the registry is not empty.
    With an empty registry the schema is the fixed four-property text
    without a [model] property and the description is the preamble alone,
    without the section; with a non-empty one the [enum] of the [model]
    property is the quoted registry ids, in registry order, joined by
    [", "], and the description is the preamble, the section header and
    then, in registry order, one line per model: ["- <id> (<display
    name>)"] when the display name is non-empty and differs from the id,
    ["- <id>"] otherwise. *)
Theorem C9_schema_and_description_agree :
  forall (q : string -> string) (s : SubagentTool),
    (schemaHasModelField (subagentInputSchema q s) = true <->
     descriptionListsModels (subagentDescription s) (AvailableModels s) = true) /\
    (descriptionListsModels (subagentDescription s) (AvailableModels s) = true <->
     AvailableModels s <> []) /\
    (AvailableModels s = [] ->
     subagentInputSchema q s = schemaHead ++ schemaTail /\
     subagentDescription s = descriptionBase /\
     schemaHasModelField (subagentInputSchema q s) = false /\
     strings.Contains (subagentDescription s) "Available models" = false) /\
    (AvailableModels s <> [] ->
     subagentInputSchema q s =
       schemaHead ++
       ("," ++ nl ++
        "    " ++ quoted "model" ++ ": {" ++ nl ++
        "      " ++ quoted "type" ++ ": " ++ quoted "string" ++ "," ++ nl ++
        "      " ++ quoted "description" ++ ": " ++
          quoted "LLM model for the subagent. Defaults to the parent conversation's model." ++
          "," ++ nl ++
        "      " ++ quoted "enum" ++ ": [" ++
          strings.Join (map q (map ID (AvailableModels s))) ", " ++
        "]" ++ nl ++ "    }")
       ++ schemaTail /\
     subagentDescription s =
       descriptionBase ++ nl ++ nl ++
       "Available models (use the " ++ quoted "model" ++
       " parameter to override the default):" ++
       String.concat ""
         (map (fun m =>
                 nl ++ (if negb (String.eqb (DisplayName m) "")
                           && negb (String.eqb (DisplayName m) (ID m))
                        then "- " ++ ID m ++ " (" ++ DisplayName m ++ ")"
                        else "- " ++ ID m))
              (AvailableModels s)) /\
     (forall m : AvailableModel,
        In m (AvailableModels s) ->
        strings.Contains (subagentDescription s) (nl ++ DescriptorSpec.entry m) = true)).
Proof.
  intros q s.
  destruct fixed_texts_have_no_model as [F1 F2].
  assert (Hs : AvailableModels s <> [] ->
               schemaHasModelField (subagentInputSchema q s) = true).
  { intros N. rewrite (subagentInputSchema_models q s N).
    unfold schemaHasModelField. apply Contains_app_r, Contains_app_l, Contains_app_l.
    vm_compute. reflexivity. }
  assert (Hd : AvailableModels s <> [] ->
               descriptionListsModels (subagentDescription s) (AvailableModels s) = true).
  { intros N. unfold descriptionListsModels. apply andb_true_iff. split.
    - rewrite (subagentDescription_models s N).
      apply Contains_app_r, Contains_app_l. vm_compute. reflexivity.
    - apply forallb_forall. intros m Hin. now apply description_has_entry. }
  assert (He : AvailableModels s = [] ->
               descriptionListsModels (subagentDescription s) (AvailableModels s) = false).
  { intros E. destruct (descriptor_no_models q s E) as [_ E2].
    unfold descriptionListsModels. now rewrite E2, F2. }
  destruct (AvailableModels s) as [|a l] eqn:A.
  - destruct (descriptor_no_models q s A) as [E1 E2].
    rewrite (He eq_refl), E1, E2, F1, F2.
    repeat split; try discriminate; try congruence.
  - assert (N : a :: l <> []) by discriminate.
    rewrite (Hs N), (Hd N). repeat split; try discriminate; try congruence.
    + rewrite subagentInputSchema_models by congruence. rewrite A.
      unfold modelPropHead, modelPropTail. rewrite !append_assoc. reflexivity.
    + rewrite description_bulleted by congruence. now rewrite A.
    + intros m Hin. apply description_has_entry. now rewrite A.
Qed.

(** ** Scenarios of the tests, evaluated *)

(** [TestSubagentTool_Run]: the happy path against the mocks. *)
Example scenario_happy_path :
  exec (Run (decodeAs (Examples.request "test-task" "Do something useful" 0 ""))
            quotePlain asciiOnly Examples.noModelsTool "request")
       newMockSubagentDB Examples.okRunner
  = ({| llm.LLMContent :=
          llm.TextContent ("Subagent 'test-task' response:" ++ nl ++
                           "Task completed successfully");
        llm.Display := Some {| SubagentDisplayData.Slug := "test-task";
                               SubagentDisplayData.ConversationID := "subagent-test-task" |};
        llm.Error := None |},
     {| conversations := [("parent-123:test-task", "subagent-test-task")] |},
     {| response := "Task completed successfully"; err := None;
        lastModelID := "some-model" |},
     [ DBEvent {| db_slug := "test-task"; db_parentID := "parent-123"; db_cwd := "/tmp" |}
               (Ok ("subagent-test-task", "test-task"));
       RunnerEvent {| run_conversationID := "subagent-test-task";
                      run_prompt := "Do something useful"; run_wait := true;
                      run_timeout := 60 * time.Second; run_modelID := "some-model" |}
                   (Ok "Task completed successfully") ]).
Proof. reflexivity. Qed.

(** [TestSubagentTool_ModelOverride]: the description and the schema built
    from a registry of two models. *)
Example scenario_descriptor :
  subagentDescription Examples.registryTool =
    descriptionBase ++ nl ++ nl ++
    "Available models (use the " ++ dq ++ "model" ++ dq ++
    " parameter to override the default):" ++ nl ++
    "- claude-sonnet-4-20250514" ++ nl ++
    "- claude-haiku-4.5 (Claude Haiku 4.5)" /\
  strings.Contains (subagentInputSchema quotePlain Examples.registryTool)
    (dq ++ "enum" ++ dq ++ ": [" ++ dq ++ "claude-sonnet-4-20250514" ++ dq ++ ", " ++
     dq ++ "claude-haiku-4.5" ++ dq ++ "]") = true /\
  strings.Contains (subagentInputSchema quotePlain Examples.noModelsTool) "enum" = false.
Proof. repeat split; vm_compute; reflexivity. Qed.

(** A decode failure is reported with its cause. *)
Example scenario_decode_error :
  Run (decodeAs (Examples.request "test" "p" 0 "")) quotePlain asciiOnly
      Examples.noModelsTool "not json"
  = Ret (llm.ErrorfToolOut "failed to parse subagent input: invalid character").
Proof. reflexivity. Qed.

(** Lowercasing works on runes: the Kelvin sign U+212A (bytes E2 84 AA) is
    one rune; under a case table that sends it to [k], as Go's does, it
    survives sanitization as the letter, and it is dropped under a table
    that leaves it alone. *)
Example scenario_kelvin_sign :
  utf8.range (String "226" (String "132" (String "170" "m"))) = [0x212A; 109] /\
  sanitizeSlug (fun r => if r =? 0x212A then 107 else r)
               (String "226" (String "132" (String "170" "m"))) = "km" /\
  sanitizeSlug asciiOnly (String "226" (String "132" (String "170" "m"))) = "m".
Proof. repeat split; reflexivity. Qed.

(** * Further properties of the executor *)

Section RunnerArguments.
Context {D R : Type} {HD : SubagentDB D} {HR : SubagentRunner R}.
Variable unm : string -> result subagentInput.
Variable q : string -> string.
Variable f : rune -> rune.
Variable s : SubagentTool.
Variable m : string.
Variable db : D.
Variable runner : R.

(** The events of a run: nothing, a failed binding, or a binding followed
    by one dispatch to the conversation the directory returned. *)
Lemma Run_events :
  eventsOf (exec (Run unm q f s m) db runner) = [] \/
  (exists c e, eventsOf (exec (Run unm q f s m) db runner) = [DBEvent c (Err e)]) \/
  (exists c conversationID actualSlug rc answer,
     eventsOf (exec (Run unm q f s m) db runner)
     = [DBEvent c (Ok (conversationID, actualSlug)); RunnerEvent rc answer] /\
     run_conversationID rc = conversationID /\
     Runner_RunSubagent runner rc = (answer, snd (Runner_RunSubagent runner rc)) /\
     fst (DB_GetOrCreateSubagentConversation db c) = Ok (conversationID, actualSlug)).
Proof.
  destruct (Run_outcome unm q f s m) as [(msg & Hrun & _)|(req & E & _ & Hrun)];
    rewrite Hrun.
  - left. reflexivity.
  - right. rewrite exec_bindAndDispatch. cbv zeta.
    destruct (DB_GetOrCreateSubagentConversation db _) as [[[cid actual]|e] db1] eqn:Hd.
    + right.
      destruct (Runner_RunSubagent runner _) as [[resp|e] runner1] eqn:Hr;
        do 5 eexists; (split; [reflexivity|]); (split; [reflexivity|]);
        rewrite Hd, Hr; split; reflexivity.
    + left. do 2 eexists. reflexivity.
Qed.

Lemma Run_dbCalls (req : subagentInput) (c : DBCall) :
  unm m = Ok req ->
  In c (dbCalls (eventsOf (exec (Run unm q f s m) db runner))) ->
  ExecutorSpec.passesValidation f s req /\
  c = {| db_slug := sanitizeSlug f (Slug req);
         db_parentID := ParentConversationID s;
         db_cwd := WorkingDir s |}.
Proof.
  intros E Hc.
  destruct (Run_outcome unm q f s m) as [(msg & Hrun & _)|(req' & E' & P & Hrun)];
    rewrite Hrun in Hc.
  - cbn in Hc. contradiction.
  - rewrite E in E'. injection E' as <-. split; [exact P|].
    rewrite exec_bindAndDispatch in Hc. cbv zeta in Hc.
    destruct (DB_GetOrCreateSubagentConversation db _) as [[[cid actual]|e] db1].
    + destruct (Runner_RunSubagent runner _) as [[resp|e] runner1];
        cbn in Hc; destruct Hc as [<-|[]]; reflexivity.
    + cbn in Hc. destruct Hc as [<-|[]]. reflexivity.
Qed.

End RunnerArguments.

(** X1: every call that reaches the runner carries [wait = true] unless the
    request supplies [wait], in which case it carries the supplied value. *)
Theorem X1_wait_passed_to_runner :
  forall (unm : string -> result subagentInput) (q : string -> string)
         (f : rune -> rune) (s : SubagentTool) (m : string) (req : subagentInput)
         (D R : Type) (HD : SubagentDB D) (HR : SubagentRunner R)
         (db : D) (runner : R) (c : RunnerCall),
    unm m = Ok req ->
    In c (runnerCalls (eventsOf (exec (Run unm q f s m) db runner))) ->
    (Wait req = None -> run_wait c = true) /\
    (forall b : bool, Wait req = Some b -> run_wait c = b).
Proof.
  intros unm q f s m req D R HD HR db runner c E Hc.
  destruct (Run_runnerCalls unm q f s m req db runner c E Hc) as (_ & _ & W & _).
  rewrite W. split.
  - intros ->. reflexivity.
  - intros b ->. reflexivity.
Qed.

Lemma X1_witness :
  (Some false = None -> false = true) /\
  (forall b : bool, Some false = Some b -> false = b).
Proof.
  apply (X1_wait_passed_to_runner
           (decodeAs {| Slug := "test"; Prompt := "go"; TimeoutSeconds := 0;
                        Wait := Some false; Model := "" |})
           quotePlain asciiOnly Examples.noModelsTool "request"
           {| Slug := "test"; Prompt := "go"; TimeoutSeconds := 0;
              Wait := Some false; Model := "" |}
           mockSubagentDB mockSubagentRunner _ _ newMockSubagentDB Examples.okRunner
           {| run_conversationID := "subagent-test"; run_prompt := "go";
              run_wait := false; run_timeout := 60 * time.Second;
              run_modelID := "some-model" |}).
  - reflexivity.
  - left. reflexivity.
Defined.

(** X2: the runner receives the request's prompt byte for byte (it is not
    sanitized or trimmed) and the conversation id the directory returned
    for this call. *)
Theorem X2_prompt_and_conversation_passed_to_runner :
  forall (unm : string -> result subagentInput) (q : string -> string)
         (f : rune -> rune) (s : SubagentTool) (m : string) (req : subagentInput)
         (D R : Type) (HD : SubagentDB D) (HR : SubagentRunner R)
         (db : D) (runner : R) (c : RunnerCall),
    unm m = Ok req ->
    In c (runnerCalls (eventsOf (exec (Run unm q f s m) db runner))) ->
    run_prompt c = Prompt req /\
    exists actualSlug : string,
      fst (DB_GetOrCreateSubagentConversation db
             {| db_slug := sanitizeSlug f (Slug req);
                db_parentID := ParentConversationID s;
                db_cwd := WorkingDir s |})
      = Ok (run_conversationID c, actualSlug).
Proof.
  intros unm q f s m req D R HD HR db runner c E Hc.
  destruct (Run_runnerCalls unm q f s m req db runner c E Hc) as (P & Hp & _).
  split; [exact Hp|].
  rewrite (Run_valid unm q f s m req E P), exec_bindAndDispatch in Hc. cbv zeta in Hc.
  destruct (DB_GetOrCreateSubagentConversation db _) as [[[cid actual]|e] db1];
    [|cbn in Hc; contradiction].
  exists actual.
  destruct (Runner_RunSubagent runner _) as [[resp|e] runner1];
    cbn in Hc; destruct Hc as [<-|[]]; reflexivity.
Qed.

Lemma X2_witness :
  "  Do THIS_now  " = "  Do THIS_now  " /\
  exists actualSlug : string,
    fst (DB_GetOrCreateSubagentConversation {| allocated := 0 |}
           {| db_slug := sanitizeSlug asciiOnly "My Task";
              db_parentID := "parent-123"; db_cwd := "/tmp" |})
    = Ok ("conv-my-task-2", actualSlug).
Proof.
  apply (X2_prompt_and_conversation_passed_to_runner
           (decodeAs (Examples.request "My Task" "  Do THIS_now  " 0 ""))
           quotePlain asciiOnly Examples.noModelsTool "request"
           (Examples.request "My Task" "  Do THIS_now  " 0 "")
           suffixingDB mockSubagentRunner _ _ {| allocated := 0 |} Examples.okRunner
           {| run_conversationID := "conv-my-task-2"; run_prompt := "  Do THIS_now  ";
              run_wait := true; run_timeout := 60 * time.Second;
              run_modelID := "some-model" |}).
  - reflexivity.
  - left. reflexivity.
Defined.

(** X3: the directory is only ever asked about a non-empty, well-formed
    slug: every call to it carries the sanitized slug of the request, the
    tool's parent conversation id and its working directory. *)
Theorem X3_directory_sees_well_formed_slug :
  forall (unm : string -> result subagentInput) (q : string -> string)
         (f : rune -> rune) (s : SubagentTool) (m : string) (req : subagentInput)
         (D R : Type) (HD : SubagentDB D) (HR : SubagentRunner R)
         (db : D) (runner : R) (c : DBCall),
    unm m = Ok req ->
    In c (dbCalls (eventsOf (exec (Run unm q f s m) db runner))) ->
    db_slug c = sanitizeSlug f (Slug req) /\
    db_slug c <> "" /\
    wellFormedSlug (db_slug c) /\
    db_parentID c = ParentConversationID s /\
    db_cwd c = WorkingDir s.
Proof.
  intros unm q f s m req D R HD HR db runner c E Hc.
  destruct (Run_dbCalls unm q f s m db runner req c E Hc) as [(_ & N & _) ->].
  cbn [db_slug db_parentID db_cwd]. repeat split; try exact N.
  all: apply sanitizeSlug_shape.
Qed.

Lemma X3_witness :
  "my-task" = sanitizeSlug asciiOnly " My__Task! " /\
  "my-task" <> "" /\
  wellFormedSlug "my-task" /\
  "parent-123" = ParentConversationID Examples.noModelsTool /\
  "/tmp" = WorkingDir Examples.noModelsTool.
Proof.
  apply (X3_directory_sees_well_formed_slug
           (decodeAs (Examples.request " My__Task! " "go" 0 ""))
           quotePlain asciiOnly Examples.noModelsTool "request"
           (Examples.request " My__Task! " "go" 0 "")
           mockSubagentDB mockSubagentRunner _ _ newMockSubagentDB Examples.okRunner
           {| db_slug := "my-task"; db_parentID := "parent-123"; db_cwd := "/tmp" |}).
  - reflexivity.
  - left. reflexivity.
Defined.

(** X4: whatever the input and the collaborators, one run of [Run] makes no
    call at all, or one directory call that failed, or one directory call
    that succeeded followed by exactly one runner call on the conversation
    the directory returned; the runner is never called first or twice. *)
Theorem X4_call_discipline :
  forall (unm : string -> result subagentInput) (q : string -> string)
         (f : rune -> rune) (s : SubagentTool) (m : string)
         (D R : Type) (HD : SubagentDB D) (HR : SubagentRunner R)
         (db : D) (runner : R),
    eventsOf (exec (Run unm q f s m) db runner) = [] \/
    (exists c e, eventsOf (exec (Run unm q f s m) db runner) = [DBEvent c (Err e)]) \/
    (exists c conversationID actualSlug rc answer,
       eventsOf (exec (Run unm q f s m) db runner)
       = [DBEvent c (Ok (conversationID, actualSlug)); RunnerEvent rc answer] /\
       run_conversationID rc = conversationID).
Proof.
  intros unm q f s m D R HD HR db runner.
  destruct (Run_events unm q f s m db runner)
    as [H|[H|(c & cid & actual & rc & answer & H & Hc & _)]].
  - now left.
  - right. now left.
  - right. right. exists c, cid, actual, rc, answer. now split.
Qed.

Lemma Run_invalid_forms (unm : string -> result subagentInput) (q : string -> string)
    (f : rune -> rune) (s : SubagentTool) (m : string) (req : subagentInput) :
  unm m = Ok req -> ExecutorSpec.failsValidation f s req ->
  exists msg,
    Run unm q f s m = Ret (llm.ErrorfToolOut msg) /\
    (msg = "slug is required" \/
     msg = "slug must contain alphanumeric characters" \/
     msg = "prompt is required" \/
     msg = "unknown model " ++ q (Model req) ++ "; available: "
           ++ strings.Join (map ID (AvailableModels s)) ", ").
Proof.
  intros E F.
  destruct (string_dec (Slug req) "") as [H1|H1];
    [eexists; split; [now apply (Run_slug_required unm q f s m req) | tauto]|].
  destruct (string_dec (sanitizeSlug f (Slug req)) "") as [H2|H2];
    [eexists; split; [now apply (Run_slug_alphanumeric unm q f s m req) | tauto]|].
  destruct (string_dec (Prompt req) "") as [H3|H3];
    [eexists; split; [now apply (Run_prompt_required unm q f s m req) | tauto]|].
  destruct F as [F|[F|[F|F]]]; try contradiction.
  eexists; split; [now apply (Run_unknown_model unm q f s m req) | tauto].
Qed.

(** X5: when the directory fails on a request that passed validation, [Run]
    returns the tool error "failed to get/create subagent conversation: "
    followed by the directory's error, and the runner is not called. *)
Theorem X5_directory_failure_is_reported :
  forall (unm : string -> result subagentInput) (q : string -> string)
         (f : rune -> rune) (s : SubagentTool) (m : string) (req : subagentInput)
         (D R : Type) (HD : SubagentDB D) (HR : SubagentRunner R)
         (db : D) (runner : R) (e : error),
    unm m = Ok req ->
    ExecutorSpec.passesValidation f s req ->
    fst (DB_GetOrCreateSubagentConversation db
           {| db_slug := sanitizeSlug f (Slug req);
              db_parentID := ParentConversationID s;
              db_cwd := WorkingDir s |}) = Err e ->
    outputOf (exec (Run unm q f s m) db runner)
    = llm.ErrorfToolOut ("failed to get/create subagent conversation: " ++ e) /\
    runnerCalls (eventsOf (exec (Run unm q f s m) db runner)) = [] /\
    snd (fst (exec (Run unm q f s m) db runner)) = runner.
Proof.
  intros unm q f s m req D R HD HR db runner e E P Hd.
  rewrite (Run_valid unm q f s m req E P), exec_bindAndDispatch. cbv zeta.
  destruct (DB_GetOrCreateSubagentConversation db _) as [[[cid actual]|e'] db1];
    [discriminate|].
  cbn in Hd. injection Hd as ->. repeat split.
Qed.

Lemma X5_witness :
  outputOf (exec (Run (decodeAs (Examples.request "test" "go" 0 "")) quotePlain asciiOnly
                      Examples.noModelsTool "request")
                 {| failure := "database is locked" |} Examples.okRunner)
  = llm.ErrorfToolOut ("failed to get/create subagent conversation: " ++ "database is locked") /\
  runnerCalls
    (eventsOf (exec (Run (decodeAs (Examples.request "test" "go" 0 "")) quotePlain asciiOnly
                         Examples.noModelsTool "request")
                    {| failure := "database is locked" |} Examples.okRunner)) = [] /\
  snd (fst (exec (Run (decodeAs (Examples.request "test" "go" 0 "")) quotePlain asciiOnly
                      Examples.noModelsTool "request")
                 {| failure := "database is locked" |} Examples.okRunner))
  = Examples.okRunner.
Proof.
  apply (X5_directory_failure_is_reported
           (decodeAs (Examples.request "test" "go" 0 "")) quotePlain asciiOnly
           Examples.noModelsTool "request" (Examples.request "test" "go" 0 "")
           failingDB mockSubagentRunner _ _ {| failure := "database is locked" |}
           Examples.okRunner "database is locked").
  - reflexivity.
  - repeat split; try discriminate. now left.
  - reflexivity.
Defined.

(** X6: when the runner fails after the directory has bound the child,
    [Run] returns the tool error "subagent error: " followed by the runner's
    error; the runner was called once and the directory keeps the state it
    reached (no retry, no rollback). *)
Theorem X6_runner_failure_is_reported :
  forall (unm : string -> result subagentInput) (q : string -> string)
         (f : rune -> rune) (s : SubagentTool) (m : string) (req : subagentInput)
         (D R : Type) (HD : SubagentDB D) (HR : SubagentRunner R)
         (db db1 : D) (runner : R) (conversationID actualSlug : string) (e : error),
    unm m = Ok req ->
    ExecutorSpec.passesValidation f s req ->
    DB_GetOrCreateSubagentConversation db
      {| db_slug := sanitizeSlug f (Slug req);
         db_parentID := ParentConversationID s;
         db_cwd := WorkingDir s |} = (Ok (conversationID, actualSlug), db1) ->
    fst (Runner_RunSubagent runner
           {| run_conversationID := conversationID; run_prompt := Prompt req;
              run_wait := ExecutorSpec.resolveWait (Wait req);
              run_timeout := ExecutorSpec.resolveTimeout (TimeoutSeconds req);
              run_modelID := ExecutorSpec.selectModel s req |}) = Err e ->
    outputOf (exec (Run unm q f s m) db runner)
    = llm.ErrorfToolOut ("subagent error: " ++ e) /\
    List.length (runnerCalls (eventsOf (exec (Run unm q f s m) db runner))) = 1%nat /\
    snd (fst (fst (exec (Run unm q f s m) db runner))) = db1.
Proof.
  intros unm q f s m req D R HD HR db db1 runner cid actual e E P Hd Hr.
  rewrite (Run_valid unm q f s m req E P), exec_bindAndDispatch. cbv zeta.
  rewrite Hd.
  destruct (Runner_RunSubagent runner _) as [[resp|e'] runner1]; [discriminate|].
  cbn in Hr. injection Hr as ->. repeat split.
Qed.

Lemma X6_witness :
  outputOf (exec (Run (decodeAs (Examples.request "test" "go" 0 "")) quotePlain asciiOnly
                      Examples.noModelsTool "request")
                 newMockSubagentDB
                 {| response := ""; err := Some "context canceled"; lastModelID := "" |})
  = llm.ErrorfToolOut ("subagent error: " ++ "context canceled") /\
  List.length
    (runnerCalls
       (eventsOf (exec (Run (decodeAs (Examples.request "test" "go" 0 "")) quotePlain
                            asciiOnly Examples.noModelsTool "request")
                       newMockSubagentDB
                       {| response := ""; err := Some "context canceled";
                          lastModelID := "" |}))) = 1%nat /\
  snd (fst (fst (exec (Run (decodeAs (Examples.request "test" "go" 0 "")) quotePlain
                           asciiOnly Examples.noModelsTool "request")
                      newMockSubagentDB
                      {| response := ""; err := Some "context canceled";
                         lastModelID := "" |})))
  = {| conversations := [("parent-123:test", "subagent-test")] |}.
Proof.
  apply (X6_runner_failure_is_reported
           (decodeAs (Examples.request "test" "go" 0 "")) quotePlain asciiOnly
           Examples.noModelsTool "request" (Examples.request "test" "go" 0 "")
           mockSubagentDB mockSubagentRunner _ _ newMockSubagentDB
           {| conversations := [("parent-123:test", "subagent-test")] |}
           {| response := ""; err := Some "context canceled"; lastModelID := "" |}
           "subagent-test" "test" "context canceled").
  - reflexivity.
  - repeat split; try discriminate. now left.
  - reflexivity.
  - reflexivity.
Defined.

(** X7: the output of [Run] is either a reply without error, whose content
    is [llm.TextContent] of one text and which carries a display payload, or
    the output [llm.ErrorfToolOut] builds, its [Error] being the message,
    for a message that is one of: the decode error, "slug is required",
    "slug must contain alphanumeric characters", "prompt is required", the
    unknown-model message, the directory's error or the runner's error,
    each under its prefix. *)
Theorem X7_outputs_of_Run :
  forall (unm : string -> result subagentInput) (q : string -> string)
         (f : rune -> rune) (s : SubagentTool) (m : string)
         (D R : Type) (HD : SubagentDB D) (HR : SubagentRunner R)
         (db : D) (runner : R),
    (exists (text : string) (d : SubagentDisplayData.t),
       outputOf (exec (Run unm q f s m) db runner)
       = {| llm.LLMContent := llm.TextContent text;
            llm.Display := Some d; llm.Error := None |}) \/
    (exists msg : string,
       outputOf (exec (Run unm q f s m) db runner) = llm.ErrorfToolOut msg /\
       llm.Error (outputOf (exec (Run unm q f s m) db runner)) = Some msg /\
       ((exists e, unm m = Err e /\ msg = "failed to parse subagent input: " ++ e) \/
        msg = "slug is required" \/
        msg = "slug must contain alphanumeric characters" \/
        msg = "prompt is required" \/
        (exists req, unm m = Ok req /\
           msg = "unknown model " ++ q (Model req) ++ "; available: "
                 ++ strings.Join (map ID (AvailableModels s)) ", ") \/
        (exists e, msg = "failed to get/create subagent conversation: " ++ e) \/
        (exists e, msg = "subagent error: " ++ e))).
Proof.
  intros unm q f s m D R HD HR db runner.
  destruct (unm m) as [req|e] eqn:E.
  - destruct (validation_cases f s req) as [F|P].
    + right. destruct (Run_invalid_forms unm q f s m req E F) as (msg & Hrun & Hm).
      exists msg. rewrite Hrun. split; [reflexivity|]. split; [reflexivity|].
      destruct Hm as [Hm|[Hm|[Hm|Hm]]]; [tauto|tauto|tauto|].
      do 4 right. left. now exists req.
    + rewrite (Run_valid unm q f s m req E P), exec_bindAndDispatch. cbv zeta.
      destruct (DB_GetOrCreateSubagentConversation db _) as [[[cid actual]|e] db1].
      * destruct (Runner_RunSubagent runner _) as [[resp|e] runner1].
        -- left. do 2 eexists. reflexivity.
        -- right. eexists. split; [reflexivity|]. split; [reflexivity|]. do 6 right. now exists e.
      * right. eexists. split; [reflexivity|]. split; [reflexivity|]. do 5 right. left. now exists e.
  - right. eexists. rewrite (Run_decode_error unm q f s m e E).
    split; [reflexivity|]. split; [reflexivity|]. left. now exists e.
Qed.

(** X8: a call succeeds exactly when the input decodes, the request passes
    validation, the directory binds the child and the runner returns a
    response. *)
Theorem X8_success_iff :
  forall (unm : string -> result subagentInput) (q : string -> string)
         (f : rune -> rune) (s : SubagentTool) (m : string)
         (D R : Type) (HD : SubagentDB D) (HR : SubagentRunner R)
         (db : D) (runner : R),
    llm.Error (outputOf (exec (Run unm q f s m) db runner)) = None <->
    exists (req : subagentInput) (conversationID actualSlug response : string),
      unm m = Ok req /\
      ExecutorSpec.passesValidation f s req /\
      fst (DB_GetOrCreateSubagentConversation db
             {| db_slug := sanitizeSlug f (Slug req);
                db_parentID := ParentConversationID s;
                db_cwd := WorkingDir s |}) = Ok (conversationID, actualSlug) /\
      fst (Runner_RunSubagent runner
             {| run_conversationID := conversationID; run_prompt := Prompt req;
                run_wait := ExecutorSpec.resolveWait (Wait req);
                run_timeout := ExecutorSpec.resolveTimeout (TimeoutSeconds req);
                run_modelID := ExecutorSpec.selectModel s req |}) = Ok response.
Proof.
  intros unm q f s m D R HD HR db runner. split.
  - intros Hok.
    destruct (Run_outcome unm q f s m) as [(msg & Hrun & _)|(req & E & P & Hrun)];
      rewrite Hrun in Hok; [discriminate|].
    rewrite exec_bindAndDispatch in Hok. cbv zeta in Hok.
    exists req.
    destruct (DB_GetOrCreateSubagentConversation db _) as [[[cid actual]|e] db1];
      [|discriminate].
    exists cid, actual.
    destruct (Runner_RunSubagent runner _) as [[resp|e] runner1];
      [|discriminate].
    exists resp. split; [exact E|]. split; [exact P|]. split; reflexivity.
  - intros (req & cid & actual & resp & E & P & Hd & Hr).
    rewrite (Run_valid unm q f s m req E P), exec_bindAndDispatch. cbv zeta.
    destruct (DB_GetOrCreateSubagentConversation db _) as [[[cid' actual']|e] db1];
      [|discriminate].
    cbn in Hd. injection Hd as -> ->.
    destruct (Runner_RunSubagent runner _) as [[resp'|e] runner1]; [reflexivity|discriminate].
Qed.

(** X9: the runner is never asked to wait less than one second or more than
    300 seconds, and always a whole number of seconds. *)
Theorem X9_timeout_bounds :
  forall (unm : string -> result subagentInput) (q : string -> string)
         (f : rune -> rune) (s : SubagentTool) (m : string)
         (D R : Type) (HD : SubagentDB D) (HR : SubagentRunner R)
         (db : D) (runner : R) (c : RunnerCall),
    In c (runnerCalls (eventsOf (exec (Run unm q f s m) db runner))) ->
    exists seconds : Z,
      1 <= seconds <= 300 /\ run_timeout c = seconds * time.Second.
Proof.
  intros unm q f s m D R HD HR db runner c Hc.
  destruct (unm m) as [req|e] eqn:E.
  - destruct (Run_runnerCalls unm q f s m req db runner c E Hc) as (_ & _ & _ & T & _).
    rewrite T. unfold ExecutorSpec.resolveTimeout.
    destruct (Z.leb_spec (TimeoutSeconds req) 0); [exists 60; split; [lia|reflexivity]|].
    destruct (Z.leb_spec (TimeoutSeconds req) 300).
    + exists (TimeoutSeconds req). split; [lia|reflexivity].
    + exists 300. split; [lia|reflexivity].
  - rewrite (Run_decode_error unm q f s m e E) in Hc. cbn in Hc. contradiction.
Qed.

Lemma X9_witness :
  exists seconds : Z, 1 <= seconds <= 300 /\ 300 * time.Second = seconds * time.Second.
Proof.
  apply (X9_timeout_bounds
           (decodeAs (Examples.request "test" "go" 86400 "")) quotePlain asciiOnly
           Examples.noModelsTool "request"
           mockSubagentDB mockSubagentRunner _ _ newMockSubagentDB Examples.okRunner
           {| run_conversationID := "subagent-test"; run_prompt := "go";
              run_wait := true; run_timeout := 300 * time.Second;
              run_modelID := "some-model" |}).
  left. reflexivity.
Defined.

(** X10: when a request's slug sanitizes to a non-empty string, the
    request that carries the sanitized slug instead (and is otherwise the
    same) is handled identically: [Run] is the same computation for both,
    with the same error, or the same directory call and the same dispatch
    and reply for every answer of the collaborators. *)
Theorem X10_presanitized_slug_same_computation :
  forall (unm unm' : string -> result subagentInput) (q : string -> string)
         (f : rune -> rune) (s : SubagentTool) (m m' : string) (req : subagentInput),
    unm m = Ok req ->
    unm' m' = Ok (setSlug req (sanitizeSlug f (Slug req))) ->
    sanitizeSlug f (Slug req) <> "" ->
    Run unm q f s m = Run unm' q f s m'.
Proof.
  intros unm unm' q f s m m' req E E' N.
  set (req' := setSlug req (sanitizeSlug f (Slug req))) in *.
  assert (I : sanitizeSlug f (Slug req') = sanitizeSlug f (Slug req)).
  { unfold req'. cbn [Slug setSlug].
    destruct (sanitizeSlug_shape f (Slug req)) as (A & P & S & C).
    now apply sanitizeSlug_fixed. }
  assert (N' : sanitizeSlug f (Slug req') <> "") by (rewrite I; exact N).
  destruct (string_dec (Prompt req) "") as [H3|H3].
  - rewrite (Run_prompt_required unm q f s m req E N H3).
    now rewrite (Run_prompt_required unm' q f s m' req' E' N' H3).
  - destruct (validation_cases f s req) as [F|P].
    + destruct F as [F|[F|[F|F]]]; try contradiction.
      * exfalso. apply N. rewrite F. apply sanitizeSlug_empty.
      * rewrite (Run_unknown_model unm q f s m req E N H3 F).
        now rewrite (Run_unknown_model unm' q f s m' req' E' N' H3 F).
    + assert (P' : ExecutorSpec.passesValidation f s req').
      { destruct P as (_ & _ & _ & M). repeat split; assumption. }
      rewrite (Run_valid unm q f s m req E P), (Run_valid unm' q f s m' req' E' P').
      rewrite I. reflexivity.
Qed.

Lemma X10_witness :
  Run (decodeAs (Examples.request "My Task" "go" 0 "")) quotePlain asciiOnly
      Examples.noModelsTool "request"
  = Run (decodeAs (Examples.request "my-task" "go" 0 "")) quotePlain asciiOnly
        Examples.noModelsTool "request".
Proof.
  apply (X10_presanitized_slug_same_computation
           (decodeAs (Examples.request "My Task" "go" 0 ""))
           (decodeAs (Examples.request "my-task" "go" 0 ""))
           quotePlain asciiOnly Examples.noModelsTool "request" "request"
           (Examples.request "My Task" "go" 0 "")).
  - reflexivity.
  - reflexivity.
  - discriminate.
Defined.

(** * Further properties of the sanitizer *)

(** X11: the strings [sanitizeSlug] leaves unchanged are exactly the
    well-formed slugs (bytes of [[a-z0-9-]], no hyphen at either end, no two
    hyphens in a row); the empty string is one of them. *)
Theorem X11_fixed_points_are_the_slugs :
  forall (f : rune -> rune) (t : string),
    sanitizeSlug f t = t <-> wellFormedSlug t.
Proof.
  intros f t. split.
  - intros E. unfold wellFormedSlug. rewrite <- E. apply sanitizeSlug_shape.
  - intros (A & P & S & C). now apply sanitizeSlug_fixed.
Qed.

Lemma allHyphen_TrimRight (u : string) :
  allBytes isHyphenByte (strings.TrimRight u "-") = allBytes isHyphenByte u.
Proof.
  induction u as [|c u IH]; [reflexivity|].
  rewrite TrimRight_cons. cbn [allBytes]. rewrite <- IH.
  destruct (strings.TrimRight u "-") as [|k ks].
  - unfold isHyphenByte at 2. destruct (Ascii.eqb c "-") eqn:C; cbn.
    + reflexivity.
    + unfold isHyphenByte. rewrite C. reflexivity.
  - reflexivity.
Qed.

Lemma TrimLeft_empty_iff (u : string) :
  strings.TrimLeft u "-" = "" <-> allBytes isHyphenByte u = true.
Proof.
  induction u as [|c u IH]; [cbn; tauto|].
  cbn [strings.TrimLeft allBytes]. rewrite inCutset_hyphen. unfold isHyphenByte at 1.
  destruct (Ascii.eqb c "-"); cbn [andb]; [exact IH|].
  split; discriminate.
Qed.

Lemma allHyphen_collapseRuns (t : string) :
  allBytes isHyphenByte (SanitizerSpec.collapseRuns t) = allBytes isHyphenByte t.
Proof.
  induction t as [|c t IH]; [reflexivity|].
  rewrite collapseRuns_cons. cbn [allBytes]. unfold isHyphenByte at 2.
  destruct (Ascii.eqb c "-") eqn:C; cbn [andb].
  - destruct (strings.HasPrefix t "-"); [exact IH|].
    cbn [allBytes]. unfold isHyphenByte at 1. rewrite C. exact IH.
  - cbn [allBytes]. unfold isHyphenByte at 1. rewrite C. reflexivity.
Qed.

Lemma allHyphen_text (rs : list rune) :
  allBytes isHyphenByte
    (SanitizerSpec.text (SanitizerSpec.dropForeign (SanitizerSpec.mapSeparators rs)))
  = negb (existsb isAlnumRune rs).
Proof.
  induction rs as [|r rs IH]; [reflexivity|].
  unfold SanitizerSpec.dropForeign, SanitizerSpec.mapSeparators in *.
  cbn [map filter existsb]. rewrite negb_orb, <- IH. clear IH.
  destruct ((r =? byteZ " ") || (r =? byteZ "_")) eqn:B.
  - change (SanitizerSpec.inAlphabet (byteZ SanitizerSpec.hyphen)) with true.
    cbn [SanitizerSpec.text allBytes].
    assert (isAlnumRune r = false) as ->.
    { unfold isAlnumRune. rune_consts. bool_to_Z; subst r; reflexivity. }
    reflexivity.
  - destruct (SanitizerSpec.inAlphabet r) eqn:A.
    + cbn [SanitizerSpec.text allBytes]. f_equal.
      pose proof (inAlphabet_range r A) as Hr.
      unfold isHyphenByte. rewrite ascii_eqb_byteZ, byteZ_byteOf by lia.
      unfold SanitizerSpec.inAlphabet in A. unfold isAlnumRune. rune_consts.
      destruct (Z.eqb_spec r 45) as [->|Hn]; [reflexivity|].
      rewrite orb_false_r in A. rewrite A. reflexivity.
    + assert (isAlnumRune r = false) as ->; [|reflexivity].
      unfold SanitizerSpec.inAlphabet in A. unfold isAlnumRune.
      apply orb_false_iff in A. apply A.
Qed.

Lemma sanitizeSlug_empty_iff (f : rune -> rune) (s : string) :
  sanitizeSlug f s = "" <->
  existsb isAlnumRune (strings.ToLowerRunes f s) = false.
Proof.
  unfold sanitizeSlug, strings.Trim.
  rewrite TrimLeft_empty_iff, allHyphen_TrimRight, collapseLoop_spec,
    allHyphen_collapseRuns, firstLoop_spec.
  cbn [String.append]. rewrite allHyphen_text.
  destruct (existsb isAlnumRune (strings.ToLowerRunes f s)); cbn; split; congruence.
Qed.

(** X12: [sanitizeSlug] returns the empty string exactly when the
    lowercased input has no rune in [[a-z0-9]]; and for a decoded request
    [Run] returns the error "slug must contain alphanumeric characters"
    exactly when the slug is non-empty and its lowercased runes include no
    letter or digit of [[a-z0-9]]. *)
Theorem X12_empty_iff_no_alphanumeric :
  forall f : rune -> rune,
    (forall s : string,
       sanitizeSlug f s = "" <->
       existsb isAlnumRune (strings.ToLowerRunes f s) = false) /\
    (forall (unm : string -> result subagentInput) (q : string -> string)
            (s : SubagentTool) (m : string) (req : subagentInput),
       unm m = Ok req ->
       (Run unm q f s m
        = Ret (llm.ErrorfToolOut "slug must contain alphanumeric characters") <->
        Slug req <> "" /\
        existsb isAlnumRune (strings.ToLowerRunes f (Slug req)) = false)).
Proof.
  intros f. split; [apply sanitizeSlug_empty_iff|].
  intros unm q s m req E. rewrite <- sanitizeSlug_empty_iff. split.
  - intros H.
    destruct (string_dec (Slug req) "") as [H1|H1].
    { rewrite (Run_slug_required unm q f s m req E H1) in H. discriminate. }
    split; [exact H1|].
    destruct (string_dec (sanitizeSlug f (Slug req)) "") as [H2|H2]; [exact H2|].
    exfalso.
    destruct (string_dec (Prompt req) "") as [H3|H3].
    { rewrite (Run_prompt_required unm q f s m req E H2 H3) in H. discriminate. }
    destruct (validation_cases f s req) as [F|P].
    + destruct F as [F|[F|[F|F]]]; try contradiction.
      rewrite (Run_unknown_model unm q f s m req E H2 H3 F) in H.
      cbn [String.append] in H. discriminate.
    + rewrite (Run_valid unm q f s m req E P) in H.
      unfold ExecutorSpec.bindAndDispatch in H. discriminate.
  - intros [H1 H2]. now apply (Run_slug_alphanumeric unm q f s m req).
Qed.

Lemma X12_witness :
  Run (decodeAs (Examples.request "__ !! --" "go" 0 "")) quotePlain asciiOnly
      Examples.noModelsTool "request"
  = Ret (llm.ErrorfToolOut "slug must contain alphanumeric characters") <->
  "__ !! --" <> "" /\
  existsb isAlnumRune (strings.ToLowerRunes asciiOnly "__ !! --") = false.
Proof.
  apply (proj2 (X12_empty_iff_no_alphanumeric asciiOnly)
           (decodeAs (Examples.request "__ !! --" "go" 0 "")) quotePlain
           Examples.noModelsTool "request" (Examples.request "__ !! --" "go" 0 "")).
  reflexivity.
Defined.

Lemma TrimLeft_length (u : string) :
  (String.length (strings.TrimLeft u "-") <= String.length u)%nat.
Proof.
  induction u as [|c u IH]; [cbn; lia|].
  cbn [strings.TrimLeft]. destruct (strings.inCutset "-" c); cbn [String.length]; lia.
Qed.

Lemma TrimRight_length (u : string) :
  (String.length (strings.TrimRight u "-") <= String.length u)%nat.
Proof.
  induction u as [|c u IH]; [cbn; lia|].
  rewrite TrimRight_cons.
  destruct (strings.TrimRight u "-").
  - destruct (Ascii.eqb c "-"); cbn [String.length] in *; lia.
  - cbn [String.length] in *. lia.
Qed.

Lemma collapseRuns_length (t : string) :
  (String.length (SanitizerSpec.collapseRuns t) <= String.length t)%nat.
Proof.
  induction t as [|c t IH]; [cbn; lia|].
  rewrite collapseRuns_cons.
  destruct (Ascii.eqb c "-" && strings.HasPrefix t "-"); cbn [String.length]; lia.
Qed.

Lemma text_length (rs : list rune) :
  String.length (SanitizerSpec.text rs) = List.length rs.
Proof.
  induction rs as [|r rs IH]; cbn; [reflexivity | now rewrite IH].
Qed.

Lemma rangeFrom_length (s : string) (skip : nat) :
  (List.length (utf8.rangeFrom skip s) <= String.length s)%nat.
Proof.
  revert skip. induction s as [|c s IH]; intros skip; [cbn; lia|].
  cbn [utf8.rangeFrom]. destruct skip as [|k].
  - destruct (utf8.DecodeRuneInString (String c s)) as [r w].
    cbn [List.length String.length]. specialize (IH (Nat.pred w)). lia.
  - cbn [String.length]. specialize (IH k). lia.
Qed.

(** X13: sanitizing never lengthens: the slug has at most as many bytes as
    the input. *)
Theorem X13_sanitizeSlug_never_longer :
  forall (f : rune -> rune) (s : string),
    (String.length (sanitizeSlug f s) <= String.length s)%nat.
Proof.
  intros f s. unfold sanitizeSlug, strings.Trim.
  eapply Nat.le_trans; [apply TrimLeft_length|].
  eapply Nat.le_trans; [apply TrimRight_length|].
  rewrite collapseLoop_spec. eapply Nat.le_trans; [apply collapseRuns_length|].
  rewrite firstLoop_spec. cbn [String.append]. rewrite text_length.
  unfold SanitizerSpec.dropForeign, SanitizerSpec.mapSeparators, strings.ToLowerRunes.
  eapply Nat.le_trans; [apply filter_length_le|].
  rewrite !length_map. apply rangeFrom_length.
Qed.

(** * Further properties of the descriptor *)

(** X14: every model of the registry is advertised: the description has its
    line ["- <id>"], followed by [" (<display name>)"] when the display name
    is non-empty and differs from the id, and the schema's text contains the
    quoted id. *)
Theorem X14_every_model_is_listed :
  forall (q : string -> string) (s : SubagentTool) (m : AvailableModel),
    In m (AvailableModels s) ->
    strings.Contains (subagentDescription s) (nl ++ "- " ++ ID m) = true /\
    (DisplayName m <> "" -> DisplayName m <> ID m ->
     strings.Contains (subagentDescription s)
       (nl ++ "- " ++ ID m ++ " (" ++ DisplayName m ++ ")") = true) /\
    strings.Contains (subagentInputSchema q s) (q (ID m)) = true.
Proof.
  intros q s m Hin.
  assert (N : AvailableModels s <> []) by (intros E; rewrite E in Hin; contradiction).
  rewrite (subagentDescription_models s N), (subagentInputSchema_models q s N).
  assert (L : In (modelLine m) (map modelLine (AvailableModels s))) by now apply in_map.
  repeat split.
  - apply Contains_app_r, Contains_app_r.
    apply (Contains_concat _ (modelLine m)); [exact L|].
    apply Contains_of_HasPrefix. unfold modelLine.
    destruct (negb _ && negb _).
    + replace (nl ++ "- " ++ ID m ++ " (" ++ DisplayName m ++ ")")
        with ((nl ++ "- " ++ ID m) ++ " (" ++ DisplayName m ++ ")")
        by (now rewrite !append_assoc).
      apply HasPrefix_app_self.
    + rewrite <- (append_empty_r (nl ++ "- " ++ ID m)) at 1. apply HasPrefix_app_self.
  - intros D1 D2. apply Contains_app_r, Contains_app_r.
    apply (Contains_concat _ (modelLine m)); [exact L|].
    unfold modelLine. apply String.eqb_neq in D1, D2. rewrite D1, D2. cbn [negb andb].
    apply Contains_refl.
  - apply Contains_app_r, Contains_app_l, Contains_app_r, Contains_app_l.
    apply (Contains_Join _ _ (q (ID m))); [|apply Contains_refl].
    apply in_map. now apply in_map.
Qed.

Lemma X14_witness :
  strings.Contains (subagentDescription Examples.registryTool)
    (nl ++ "- " ++ "claude-haiku-4.5") = true /\
  ("Claude Haiku 4.5" <> "" -> "Claude Haiku 4.5" <> "claude-haiku-4.5" ->
   strings.Contains (subagentDescription Examples.registryTool)
     (nl ++ "- " ++ "claude-haiku-4.5" ++ " (" ++ "Claude Haiku 4.5" ++ ")") = true) /\
  strings.Contains (subagentInputSchema quotePlain Examples.registryTool)
    (quotePlain "claude-haiku-4.5") = true.
Proof.
  apply (X14_every_model_is_listed quotePlain Examples.registryTool
           {| ID := "claude-haiku-4.5"; DisplayName := "Claude Haiku 4.5" |}).
  right. left. reflexivity.
Defined.

(** * The directory and runner of the tests *)

Lemma mockDB_answer (db : mockSubagentDB) (c : DBCall) :
  exists id : string,
    DB_GetOrCreateSubagentConversation db c
    = (Ok (id, db_slug c), snd (DB_GetOrCreateSubagentConversation db c)) /\
    lookup (db_parentID c ++ ":" ++ db_slug c)
           (conversations (snd (DB_GetOrCreateSubagentConversation db c))) = Some id.
Proof.
  cbn [DB_GetOrCreateSubagentConversation mockSubagentDB_SubagentDB].
  destruct (lookup (db_parentID c ++ ":" ++ db_slug c) (conversations db)) as [id|] eqn:L.
  - exists id. split; [reflexivity | exact L].
  - eexists. split; [reflexivity|].
    cbn [snd conversations lookup]. now rewrite String.eqb_refl.
Qed.

Lemma mockDB_known (db : mockSubagentDB) (c : DBCall) (id : string) :
  lookup (db_parentID c ++ ":" ++ db_slug c) (conversations db) = Some id ->
  DB_GetOrCreateSubagentConversation db c = (Ok (id, db_slug c), db).
Proof.
  intros L. cbn [DB_GetOrCreateSubagentConversation mockSubagentDB_SubagentDB].
  now rewrite L.
Qed.




(** X17: the recording runner of the tests ends up holding the model [Run]
    selected: after a call that reached it, [lastModelID] is the request's
    model when that is non-empty and the tool's [ModelID] otherwise; after a
    call that did not reach it, the runner is untouched. *)
Theorem X17_mock_runner_records_selected_model :
  forall (unm : string -> result subagentInput) (q : string -> string)
         (f : rune -> rune) (s : SubagentTool) (m : string) (req : subagentInput)
         (D : Type) (HD : SubagentDB D) (db : D) (runner : mockSubagentRunner),
    unm m = Ok req ->
    (runnerCalls (eventsOf (exec (Run unm q f s m) db runner)) = [] ->
     runnerOf (exec (Run unm q f s m) db runner) = runner) /\
    (runnerCalls (eventsOf (exec (Run unm q f s m) db runner)) <> [] ->
     lastModelID (runnerOf (exec (Run unm q f s m) db runner))
     = (if String.eqb (Model req) "" then ModelID s else Model req)).
Proof.
  intros unm q f s m req D HD db runner E.
  destruct (Run_outcome unm q f s m) as [(msg & Hrun & _)|(r & E' & _ & Hrun)];
    rewrite Hrun.
  - split; [reflexivity|]. intros N. now contradiction N.
  - rewrite E in E'. injection E' as <-.
    rewrite exec_bindAndDispatch. cbv zeta.
    destruct (DB_GetOrCreateSubagentConversation db _) as [[[cid actual]|e] db1].
    + cbn [Runner_RunSubagent mockSubagentRunner_SubagentRunner err].
      destruct (err runner); (split; [discriminate|]); intros _; reflexivity.
    + split; [reflexivity|]. intros N. now contradiction N.
Qed.

Lemma X17_witness :
  (runnerCalls
     (eventsOf (exec (Run (decodeAs (Examples.request "test" "go" 0 "claude-haiku-4.5"))
                          quotePlain asciiOnly Examples.registryTool "request")
                     newMockSubagentDB Examples.okRunner)) = [] ->
   runnerOf (exec (Run (decodeAs (Examples.request "test" "go" 0 "claude-haiku-4.5"))
                       quotePlain asciiOnly Examples.registryTool "request")
                  newMockSubagentDB Examples.okRunner) = Examples.okRunner) /\
  (runnerCalls
     (eventsOf (exec (Run (decodeAs (Examples.request "test" "go" 0 "claude-haiku-4.5"))
                          quotePlain asciiOnly Examples.registryTool "request")
                     newMockSubagentDB Examples.okRunner)) <> [] ->
   lastModelID
     (runnerOf (exec (Run (decodeAs (Examples.request "test" "go" 0 "claude-haiku-4.5"))
                          quotePlain asciiOnly Examples.registryTool "request")
                     newMockSubagentDB Examples.okRunner))
   = "claude-haiku-4.5").
Proof.
  apply (X17_mock_runner_records_selected_model
           (decodeAs (Examples.request "test" "go" 0 "claude-haiku-4.5"))
           quotePlain asciiOnly Examples.registryTool "request"
           (Examples.request "test" "go" 0 "claude-haiku-4.5")
           mockSubagentDB _ newMockSubagentDB Examples.okRunner).
  reflexivity.
Defined.

(** * Inputs the sanitizer does not tell apart *)

(** Two runes read at the same place of two such inputs: the same rune, or
    the values of two ASCII bytes the sanitizer does not tell apart. *)
Lemma sameSlugByte_cases (c d : ascii) :
  sameSlugByte c d = true ->
  c = d \/ (byteZ c < 128 /\ byteZ d < 128).
Proof.
  unfold sameSlugByte, isSeparatorByte. intros H.
  apply orb_true_iff in H. destruct H as [H|H].
  - apply orb_true_iff in H. destruct H as [H|H].
    + left. now apply Ascii.eqb_eq.
    + right. apply andb_true_iff in H. destruct H as [Hc Hd].
      split.
      * repeat (apply orb_true_iff in Hc; destruct Hc as [Hc|Hc]);
          apply Ascii.eqb_eq in Hc; subst c; vm_compute; reflexivity.
      * repeat (apply orb_true_iff in Hd; destruct Hd as [Hd|Hd]);
          apply Ascii.eqb_eq in Hd; subst d; vm_compute; reflexivity.
  - right. apply andb_true_iff in H. destruct H as [H _].
    apply andb_true_iff in H. destruct H as [Hc Hd].
    split; now apply Z.ltb_lt.
Qed.

Lemma first_lo (p0 : Z) (sz : nat) (lo hi : Z) :
  utf8.first p0 = Some (sz, lo, hi) -> 128 <= lo.
Proof.
  unfold utf8.first.
  repeat match goal with
         | |- context [if ?b then _ else _] => destruct b
         end; intros [= <- <- <-] || discriminate; lia.
Qed.

Lemma range_check_ascii (c : ascii) (lo hi : Z) :
  byteZ c < 128 -> 128 <= lo -> (lo <=? byteZ c) && (byteZ c <=? hi) = false.
Proof.
  intros Hc Hlo. apply andb_false_iff. left. apply Z.leb_gt. lia.
Qed.

Lemma cont_ascii (c : ascii) : byteZ c < 128 -> utf8.cont (byteZ c) = false.
Proof.
  intros Hc. unfold utf8.cont. now apply range_check_ascii.
Qed.

Lemma Decode_same (s t : string) :
  sameSlugInput s t = true ->
  utf8.DecodeRuneInString s = utf8.DecodeRuneInString t \/
  exists c d s' t',
    s = String c s' /\ t = String d t' /\ sameSlugByte c d = true /\
    byteZ c < 128 /\ byteZ d < 128.
Proof.
  destruct s as [|c s1], t as [|d t1]; cbn [sameSlugInput]; try discriminate;
    [now left|].
  intros H. apply andb_true_iff in H. destruct H as [B0 H1].
  destruct (sameSlugByte_cases c d B0) as [<-|[Hc Hd]];
    [|right; now exists c, d, s1, t1].
  left. cbn [utf8.DecodeRuneInString]. cbv zeta.
  destruct (byteZ c <? utf8.RuneSelf); [reflexivity|].
  destruct (utf8.first (byteZ c)) as [[[sz lo] hi]|] eqn:F; [|reflexivity].
  apply first_lo in F.
  destruct s1 as [|c1 s2], t1 as [|d1 t2]; cbn [sameSlugInput] in H1;
    try discriminate; [reflexivity|].
  apply andb_true_iff in H1. destruct H1 as [B1 H2].
  destruct (sameSlugByte_cases c1 d1 B1) as [<-|[Hc Hd]];
    [|rewrite (range_check_ascii c1), (range_check_ascii d1) by assumption; reflexivity].
  destruct (negb _); [reflexivity|].
  destruct sz as [|[|[|[|[|sz]]]]]; try reflexivity.
  - (* three bytes *)
    destruct s2 as [|c2 s3], t2 as [|d2 t3]; cbn [sameSlugInput] in H2;
      try discriminate; [reflexivity|].
    apply andb_true_iff in H2. destruct H2 as [B2 H3].
    destruct (sameSlugByte_cases c2 d2 B2) as [<-|[Hc Hd]];
      [reflexivity | rewrite (cont_ascii c2), (cont_ascii d2) by assumption; reflexivity].
  - (* four bytes *)
    destruct s2 as [|c2 s3], t2 as [|d2 t3]; cbn [sameSlugInput] in H2;
      try discriminate; [reflexivity|].
    apply andb_true_iff in H2. destruct H2 as [B2 H3].
    destruct s3 as [|c3 s4], t3 as [|d3 t4]; cbn [sameSlugInput] in H3;
      try discriminate; [reflexivity|].
    apply andb_true_iff in H3. destruct H3 as [B3 H4].
    destruct (sameSlugByte_cases c2 d2 B2) as [<-|[Hc Hd]];
      [|rewrite (cont_ascii c2), (cont_ascii d2) by assumption; reflexivity].
    destruct (negb (utf8.cont (byteZ c2))); [reflexivity|].
    destruct (sameSlugByte_cases c3 d3 B3) as [<-|[Hc Hd]];
      [reflexivity | rewrite (cont_ascii c3), (cont_ascii d3) by assumption; reflexivity].
Qed.

Lemma ToLower_ascii_byte (f : rune -> rune) (c : ascii) :
  byteZ c < 128 -> unicode.ToLower f (byteZ c) = byteZ (asciiLowerByte c).
Proof.
  intros Hc. unfold unicode.ToLower, asciiLowerByte, unicode.MaxASCII.
  destruct (Z.leb_spec (byteZ c) 127); [|lia].
  change (byteZ "A") with 65. change (byteZ "Z") with 90. change (byteZ "a") with 97.
  destruct ((65 <=? byteZ c) && (byteZ c <=? 90)) eqn:U; [|reflexivity].
  rewrite byteZ_byteOf; [reflexivity|]. pose proof (byteZ_range c). lia.
Qed.

Lemma sanitizeStep_same (f : rune -> rune) (acc : string) (c d : ascii) :
  sameSlugByte c d = true -> byteZ c < 128 -> byteZ d < 128 ->
  sanitizeStep acc (unicode.ToLower f (byteZ c))
  = sanitizeStep acc (unicode.ToLower f (byteZ d)).
Proof.
  intros B Hc Hd. unfold sameSlugByte in B.
  apply orb_true_iff in B. destruct B as [B|B].
  - apply orb_true_iff in B. destruct B as [B|B].
    + apply Ascii.eqb_eq in B. now subst d.
    + apply andb_true_iff in B. destruct B as [Sc Sd]. unfold isSeparatorByte in *.
      repeat (apply orb_true_iff in Sc; destruct Sc as [Sc|Sc]);
        apply Ascii.eqb_eq in Sc; subst c;
        repeat (apply orb_true_iff in Sd; destruct Sd as [Sd|Sd]);
        apply Ascii.eqb_eq in Sd; subst d; reflexivity.
  - apply andb_true_iff in B. destruct B as [_ B]. apply Ascii.eqb_eq in B.
    now rewrite !ToLower_ascii_byte, B by assumption.
Qed.

Lemma firstLoop_same (f : rune -> rune) (s t : string) :
  sameSlugInput s t = true ->
  forall (skip : nat) (acc : string),
    fold_left sanitizeStep (map (unicode.ToLower f) (utf8.rangeFrom skip s)) acc
    = fold_left sanitizeStep (map (unicode.ToLower f) (utf8.rangeFrom skip t)) acc.
Proof.
  revert t. induction s as [|c s IH]; intros t H skip acc.
  - destruct t; [reflexivity | discriminate].
  - destruct t as [|d t]; [discriminate|].
    pose proof H as H'. cbn [sameSlugInput] in H'.
    apply andb_true_iff in H'. destruct H' as [_ Hrest].
    cbn [utf8.rangeFrom]. destruct skip as [|k]; [|now apply IH].
    destruct (Decode_same _ _ H) as [E|(c' & d' & s' & t' & Es & Et & B & Hc & Hd)].
    + rewrite E. destruct (utf8.DecodeRuneInString (String d t)) as [r w].
      cbn [map fold_left]. now apply IH.
    + injection Es as <- <-. injection Et as <- <-.
      cbn [utf8.DecodeRuneInString]. cbv zeta. unfold utf8.RuneSelf.
      destruct (Z.ltb_spec (byteZ c) 128); [|lia].
      destruct (Z.ltb_spec (byteZ d) 128); [|lia].
      cbn [map fold_left Nat.pred].
      rewrite (sanitizeStep_same f acc c d B Hc Hd). now apply IH.
Qed.

(** X18: inputs of the same length that differ, byte by byte, only in the
    case of ASCII letters and in which of space, underscore and hyphen
    stands as separator sanitize to the same slug. *)
Theorem X18_case_and_separators_do_not_matter :
  forall (f : rune -> rune) (s t : string),
    sameSlugInput s t = true -> sanitizeSlug f s = sanitizeSlug f t.
Proof.
  intros f s t H. unfold sanitizeSlug, strings.ToLowerRunes, utf8.range.
  now rewrite (firstLoop_same f s t H 0 "").
Qed.

Lemma X18_witness :
  sanitizeSlug asciiOnly "Fix the_API bug" = sanitizeSlug asciiOnly "fix-THE api_Bug".
Proof.
  apply (X18_case_and_separators_do_not_matter asciiOnly
           "Fix the_API bug" "fix-THE api_Bug").
  reflexivity.
Defined.
